(** * Summary regeneration API route: a shallow embedding and its properties

    The development follows the API route of the repository
    (the file with [handler], [generateSummary] and [generateSummaryRetry]):

    - JavaScript strings are sequences of UTF-16 code units ([jsstring]);
      [length], [substring], [trim], [includes] and the regular expression
      of the source work on code units, as they do in the engine;
    - [throw] / [try ... catch] are an error monad, outbound calls and
      datastore writes are recorded in a trace of events;
    - the collaborators that live outside the route (token utility, user
      store, file store, the generative-language endpoint, the process
      environment) are parameters of the embedded functions. *)

From Stdlib Require Import String Ascii.
From Stdlib Require Import List NArith Bool Lia.
From Stdlib Require DecimalPos DecimalN.
Import ListNotations.

Local Open Scope N_scope.
Local Open Scope list_scope.

(** ** Strings *)

(** A JavaScript string: its UTF-16 code units. *)
Definition jsstring : Type := list N.

(** A literal of the source, read as code units (the literals of the route
    are all ASCII). *)
Definition js (s : string) : jsstring :=
  map N_of_ascii (list_ascii_of_string s).
Arguments js s%_string.

(** The line feed and the escaped double quote of the source's template
    literals. *)
Definition LF : jsstring := [10].
Definition DQUOTE : jsstring := [34].

(** [s === ''] *)
Definition isEmpty (s : jsstring) : bool :=
  match s with
  | [] => true
  | _ :: _ => false
  end.

(** [a === b] on two strings. *)
Fixpoint strictEq (a b : jsstring) : bool :=
  match a, b with
  | [], [] => true
  | x :: a', y :: b' => (x =? y) && strictEq a' b'
  | _, _ => false
  end.

(** ECMAScript WhiteSpace and LineTerminator code points: the class that
    both [String.prototype.trim] and the escape [\s] use. *)
Definition isWhiteSpace (c : N) : bool :=
  (c =? 9) || (c =? 10) || (c =? 11) || (c =? 12) || (c =? 13)
  || (c =? 32) || (c =? 160) || (c =? 5760)
  || ((8192 <=? c) && (c <=? 8202))
  || (c =? 8232) || (c =? 8233) || (c =? 8239) || (c =? 8287)
  || (c =? 12288) || (c =? 65279).

Fixpoint trimStart (s : jsstring) : jsstring :=
  match s with
  | c :: s' => if isWhiteSpace c then trimStart s' else s
  | [] => []
  end.

Definition trimEnd (s : jsstring) : jsstring := rev (trimStart (rev s)).

(** [s.trim()] *)
Definition trim (s : jsstring) : jsstring := trimEnd (trimStart s).

(** [s.startsWith(pat)] *)
Fixpoint startsWith (s pat : jsstring) : bool :=
  match pat, s with
  | [], _ => true
  | p :: pat', c :: s' => (c =? p) && startsWith s' pat'
  | _ :: _, [] => false
  end.

(** [s.includes(pat)] *)
Fixpoint includes (s pat : jsstring) : bool :=
  startsWith s pat
  || match s with
     | [] => false
     | _ :: s' => includes s' pat
     end.

(** [s.substring(0, n)] *)
Definition substring0 (n : N) (s : jsstring) : jsstring := firstn (N.to_nat n) s.

(** [s.length] *)
Definition jsLength (s : jsstring) : N := N.of_nat (length s).

(** Decimal digits of a non-negative integer, as [String(n)] prints it. *)
Fixpoint digits (d : Decimal.uint) : jsstring :=
  match d with
  | Decimal.Nil => []
  | Decimal.D0 d' => 48 :: digits d'
  | Decimal.D1 d' => 49 :: digits d'
  | Decimal.D2 d' => 50 :: digits d'
  | Decimal.D3 d' => 51 :: digits d'
  | Decimal.D4 d' => 52 :: digits d'
  | Decimal.D5 d' => 53 :: digits d'
  | Decimal.D6 d' => 54 :: digits d'
  | Decimal.D7 d' => 55 :: digits d'
  | Decimal.D8 d' => 56 :: digits d'
  | Decimal.D9 d' => 57 :: digits d'
  end.

Definition numberToString (n : N) : jsstring := digits (N.to_uint n).

(** ** The regular expression [/SUMMARY:\s*(.+?)(?=TOPICS:|$)/s]

    The matcher is written piece by piece, in the order in which a
    backtracking engine runs the pattern.  Each function returns the text
    captured by group 1 when the rest of the pattern matches from its
    position on, and [None] when it does not. *)

(** [(?=TOPICS:|$)]: without the [m] flag [$] holds at the end of the input
    only. *)
Definition lookahead (s : jsstring) : bool :=
  startsWith s (js "TOPICS:") || isEmpty s.

(** [(.+?)(?=TOPICS:|$)]: with the [s] flag the dot takes any code unit; the
    lazy quantifier takes one, then one more each time the lookahead fails. *)
Fixpoint dotPlusLazy (s : jsstring) : option jsstring :=
  match s with
  | [] => None
  | c :: s' =>
      if lookahead s' then Some [c]
      else option_map (cons c) (dotPlusLazy s')
  end.

(** [\s*(.+?)(?=TOPICS:|$)]: the greedy star takes white space while it can,
    and gives it back one code unit at a time when what follows fails. *)
Fixpoint spacesGreedy (s : jsstring) : option jsstring :=
  match s with
  | c :: s' =>
      if isWhiteSpace c then
        match spacesGreedy s' with
        | Some m => Some m
        | None => dotPlusLazy s
        end
      else dotPlusLazy s
  | [] => dotPlusLazy s
  end.

(** The whole pattern, anchored at the start of [s]. *)
Definition matchHere (s : jsstring) : option jsstring :=
  if startsWith s (js "SUMMARY:")
  then spacesGreedy (skipn (length (js "SUMMARY:")) s)
  else None.

(** [s.match(/SUMMARY:\s*(.+?)(?=TOPICS:|$)/s)]: the leftmost start position
    at which the pattern matches; the result is group 1 ([summaryMatch[1]]),
    [None] is the [null] of a failed match. *)
Fixpoint matchSummary (s : jsstring) : option jsstring :=
  match matchHere s with
  | Some m => Some m
  | None =>
      match s with
      | [] => None
      | _ :: s' => matchSummary s'
      end
  end.

(** ** Values parsed from the upstream reply *)

(** What [response.json()] yields.  A number is an IEEE double in the
    engine; the route only ever tests a number for truthiness, so the
    constructor records whether it is zero. *)
#[warnings="-register-all"]
Inductive Json : Type :=
| JNull
| JBool (b : bool)
| JNumber (isZero : bool)
| JString (s : jsstring)
| JArray (items : list Json)
| JObject (members : list (jsstring * Json)).

(** Own property [k] of a parsed object; of two members with the same name
    the later one wins, as in [JSON.parse].  [None] is [undefined]. *)
Fixpoint lookupMember (k : jsstring) (ms : list (jsstring * Json)) : option Json :=
  match ms with
  | [] => None
  | (k', v) :: ms' =>
      match lookupMember k ms' with
      | Some v' => Some v'
      | None => if strictEq k' k then Some v else None
      end
  end.

(** [v?.k] for the property names the route reads ([candidates], [content],
    [parts], [text]): none of them is on a built-in prototype, so only a
    parsed object can have one. *)
Definition getMember (v : option Json) (k : jsstring) : option Json :=
  match v with
  | Some (JObject ms) => lookupMember k ms
  | _ => None
  end.

(** [v?.[0]]: the first item of an array, the member named [0] of an object,
    the first code unit of a string. *)
Definition getIndex0 (v : option Json) : option Json :=
  match v with
  | Some (JArray items) => hd_error items
  | Some (JObject ms) => lookupMember (js "0") ms
  | Some (JString (c :: _)) => Some (JString [c])
  | _ => None
  end.

(** JavaScript truthiness of a parsed value. *)
Definition truthy (v : Json) : bool :=
  match v with
  | JNull => false
  | JBool b => b
  | JNumber isZero => negb isZero
  | JString s => negb (isEmpty s)
  | JArray _ => true
  | JObject _ => true
  end.

(** [v || d] *)
Definition orElse (v : option Json) (d : Json) : Json :=
  match v with
  | Some j => if truthy j then j else d
  | None => d
  end.

(** ** Errors, effects and the outside world *)

(** A thrown value.  [NewError m] is [new Error(m)]; the other two are raised
    by the engine, with a message the language does not fix. *)
Inductive JsError : Type :=
| NewError (message : jsstring)
| TypeError
| SyntaxError.

Inductive Outcome (A : Type) : Type :=
| Returned (a : A)
| Thrown (e : JsError).
Arguments Returned {A} a.
Arguments Thrown {A} e.

(** The response object that [fetch] resolves to. *)
Module Response.
Record t : Type := mk {
  ok : bool;
  status : N;
  (** [await response.text()] *)
  text : jsstring;
  (** [await response.json()]; [None] when the body does not parse *)
  json : option Json
}.
End Response.

Inductive FetchResult : Type :=
| Rejected
| Resolved (r : Response.t).

(** The fields a write to the file store carries. *)
Module Patch.
Record t : Type := mk { summary : jsstring; topic : jsstring }.
End Patch.

(** What the route does to the outside: one [Fetch] per call of [fetch]
    (with the URL and the prompt placed in [contents[0].parts[0].text]), one
    [Update] per call of [filesDB.update].  Console output is not part of the
    contract and is left out. *)
Inductive Event : Type :=
| Fetch (url prompt : jsstring)
| Update (id : jsstring) (patch : Patch.t).

(** The process environment and the network, as the route sees them. *)
Record Runtime : Type := {
  GEMINI_API_KEY : option jsstring;
  fetch : jsstring -> jsstring -> FetchResult
}.

(** A computation that may throw and that leaves a trace of events. *)
Definition Exec (A : Type) : Type := (list Event * Outcome A)%type.

Definition ret {A} (a : A) : Exec A := ([], Returned a).

Definition throw {A} (e : JsError) : Exec A := ([], Thrown e).

Definition bind {A B} (m : Exec A) (k : A -> Exec B) : Exec B :=
  match m with
  | (t, Returned a) => let (t', o) := k a in (t ++ t', o)
  | (t, Thrown e) => (t, Thrown e)
  end.

(** [try { m } catch (e) { h e }] *)
Definition tryCatch {A} (m : Exec A) (h : JsError -> Exec A) : Exec A :=
  match m with
  | (t, Returned a) => (t, Returned a)
  | (t, Thrown e) => let (t', o) := h e in (t ++ t', o)
  end.

Notation "x <- m ;; k" := (bind m (fun x => k))
  (at level 61, m at next level, right associativity).

(** [await fetch(url, { method: 'POST', ..., body: JSON.stringify(...) })] *)
Definition doFetch (rt : Runtime) (url prompt : jsstring) : Exec Response.t :=
  ([Fetch url prompt],
   match fetch rt url prompt with
   | Rejected => Thrown TypeError
   | Resolved r => Returned r
   end).

(** [await response.json()] *)
Definition responseJson (r : Response.t) : Exec Json :=
  match Response.json r with
  | Some data => ret data
  | None => throw SyntaxError
  end.

(** [data.candidates?.[0]?.content?.parts?.[0]?.text || '']: the first
    access is not optional and throws on [null]. *)
Definition generatedTextOf (data : Json) : Exec Json :=
  match data with
  | JNull => throw TypeError
  | _ =>
      ret (orElse
             (getMember
                (getIndex0
                   (getMember
                      (getMember
                         (getIndex0 (getMember (Some data) (js "candidates")))
                         (js "content"))
                      (js "parts")))
                (js "text"))
             (JString []))
  end.

(** [generatedText.match(/SUMMARY:\s*(.+?)(?=TOPICS:|$)/s)]: only a string
    has the method. *)
Definition stringMatch (generatedText : Json) : Exec (option jsstring) :=
  match generatedText with
  | JString s => ret (matchSummary s)
  | _ => throw TypeError
  end.

(** The request URL; a missing key prints as [undefined] in the template. *)
Definition endpoint (rt : Runtime) : jsstring :=
  js "https://generativelanguage.googleapis.com/v1/models/gemini-1.5-flash:generateContent?key="
  ++ match GEMINI_API_KEY rt with
     | Some k => k
     | None => js "undefined"
     end.

(** The template literal both generators fill with the transcript. *)
Definition promptHead : jsstring :=
  js "Analyze this transcript:" ++ LF ++ LF ++ DQUOTE.

Definition promptTail : jsstring :=
  DQUOTE ++ LF ++ LF
  ++ js "Provide:" ++ LF
  ++ js "1. SUMMARY: A 2-3 sentence summary." ++ LF
  ++ js "2. TOPICS: 3-5 main topics, comma-separated." ++ LF
  ++ js "3. INSIGHTS: 1-2 key insights." ++ LF ++ LF
  ++ js "Format your response exactly like this:" ++ LF
  ++ js "SUMMARY: [Your summary]" ++ LF
  ++ js "TOPICS: [topic1, topic2]" ++ LF
  ++ js "INSIGHTS: [Your insights]".

Definition summaryPromptOf (text : jsstring) : jsstring :=
  promptHead ++ text ++ promptTail.

(** ** [generateSummary] *)

Definition maxTranscriptLength : N := 32000.

(** [text.length > maxTranscriptLength ? text.substring(0, maxTranscriptLength) : text] *)
Definition truncatedTextOf (text : jsstring) : jsstring :=
  if maxTranscriptLength <? jsLength text
  then substring0 maxTranscriptLength text
  else text.

(** The four errors raised on [!response.ok]. *)
Definition statusError (status : N) (errorText : jsstring) : JsError :=
  if status =? 401 then
    NewError (js "Invalid API key - please check GEMINI_API_KEY configuration")
  else if status =? 403 then
    NewError (js "API access forbidden - please check API key permissions")
  else if status =? 429 then
    NewError (js "API rate limit exceeded - please try again later")
  else
    NewError (js "Gemini API error: " ++ numberToString status ++ js " - " ++ errorText).

(** [!text || text.trim().length === 0] *)
Definition isBlank (text : jsstring) : bool :=
  isEmpty text || (jsLength (trim text) =? 0).

Definition generateSummary (rt : Runtime) (text : jsstring) : Exec jsstring :=
  tryCatch
    (if isBlank text then
       throw (NewError (js "No transcript text provided"))
     else
       let truncatedText := truncatedTextOf text in
       let summaryPrompt := summaryPromptOf truncatedText in
       response <- doFetch rt (endpoint rt) summaryPrompt ;;
       if negb (Response.ok response) then
         let errorText := Response.text response in
         throw (statusError (Response.status response) errorText)
       else
         data <- responseJson response ;;
         generatedText <- generatedTextOf data ;;
         if negb (truthy generatedText) then
           throw (NewError (js "Empty response from AI service"))
         else
           summaryMatch <- stringMatch generatedText ;;
           let summary :=
             match summaryMatch with
             | Some group1 => trim group1
             | None => js "AI-generated summary not available"
             end in
           if isEmpty summary || (jsLength summary <? 20) then
             throw (NewError (js "Generated summary is too short or invalid"))
           else
             ret summary)
    (fun error => throw error).

(** ** [generateSummaryRetry] *)

Definition generateSummaryRetry (rt : Runtime) (text : jsstring) : Exec jsstring :=
  tryCatch
    (let summaryPrompt := summaryPromptOf text in
     response <- doFetch rt (endpoint rt) summaryPrompt ;;
     if negb (Response.ok response) then
       throw (NewError (js "Gemini API retry error: "
                        ++ numberToString (Response.status response)))
     else
       data <- responseJson response ;;
       generatedText <- generatedTextOf data ;;
       summaryMatch <- stringMatch generatedText ;;
       let summary :=
         match summaryMatch with
         | Some group1 => trim group1
         | None => js "AI summary generation failed after retry"
         end in
       if isEmpty summary || (jsLength summary <? 20) then
         ret (js "AI summary generation failed after retry - please regenerate manually.")
       else
         ret summary)
    (fun error => ret (js "AI summary generation failed after retry")).

(** ** The request handler *)

Module User.
Record t : Type := mk { id : jsstring; email : jsstring }.
End User.

(** A file record; [None] is a field that is [null] or absent. *)
Module File.
Record t : Type := mk {
  id : jsstring;
  userId : jsstring;
  transcript : option jsstring;
  summary : option jsstring;
  topic : option jsstring
}.
End File.

(** The incoming request: [req.method], the headers the token is read from,
    and [req.body] ([None] when there is no parsed body) with its [fileId]. *)
Module Req.
Record body_t : Type := mkBody { fileId : option jsstring }.
Record t : Type := mk {
  method : jsstring;
  headers : list (jsstring * jsstring);
  body : option body_t
}.
End Req.

(** The JSON bodies the handler answers with:
    [{ error }], [{ error, details: err.message }] and
    [{ success: true, message, summary }]. *)
Inductive ResBody : Type :=
| ErrorJson (error : jsstring)
| ErrorDetailsJson (error : jsstring) (err : JsError)
| SuccessJson (message summary : jsstring).

(** [res.status(code).json(body)] *)
Module Res.
Record t : Type := mk { status : N; json : ResBody }.
End Res.

(** The payload of a verified token. *)
Record Decoded : Type := { decodedEmail : jsstring }.

(** The collaborators imported from [utils/auth.js] and [utils/database.js].
    Their code is outside the route; the handler is embedded over any
    implementation with the interface the route uses ([None] is [null]). *)
Record Collaborators (DB : Type) : Type := {
  getTokenFromRequest : Req.t -> option jsstring;
  verifyToken : option jsstring -> option Decoded;
  usersDB_findByEmail : jsstring -> option User.t;
  filesDB_findById : DB -> jsstring -> option File.t;
  filesDB_update : DB -> jsstring -> Patch.t -> DB * option File.t
}.
Arguments getTokenFromRequest {DB} c _.
Arguments verifyToken {DB} c _.
Arguments usersDB_findByEmail {DB} c _.
Arguments filesDB_findById {DB} c _ _.
Arguments filesDB_update {DB} c _ _ _.

(** [!v] for a value that is a string, [null] or [undefined]. *)
Definition falsy (v : option jsstring) : bool :=
  match v with
  | Some s => isEmpty s
  | None => true
  end.

(** [v || d] for such a value. *)
Definition stringOr (v : option jsstring) (d : jsstring) : jsstring :=
  match v with
  | Some s => if isEmpty s then d else s
  | None => d
  end.

(** The handler's result: the response, the file store afterwards and the
    trace of outbound calls and store writes. *)
Definition Handled (DB : Type) : Type := (Res.t * DB * list Event)%type.

Definition respond {DB} (code : N) (b : ResBody) (db : DB) (tr : list Event) : Handled DB :=
  (Res.mk code b, db, tr).

(** The exported handler.  Every branch of the source ends in a [return],
    so the nesting of the matches is the order of its checks.  The outer
    [try] answers any exception with 500 and [Internal server error] (the
    collaborators are total here, which leaves the destructuring of a missing
    body as the one throw it sees); the inner [try] wraps the generation and
    the write, and answers an exception of [generateSummary] with 500 and
    its message. *)
Definition handler {DB} (c : Collaborators DB) (rt : Runtime) (db : DB) (req : Req.t)
  : Handled DB :=
  if negb (strictEq (Req.method req) (js "POST")) then
    respond 405 (ErrorJson (js "Method not allowed")) db []
  else
    let token := getTokenFromRequest c req in
    match verifyToken c token with
    | None => respond 401 (ErrorJson (js "Unauthorized")) db []
    | Some decoded =>
    match usersDB_findByEmail c (decodedEmail decoded) with
    | None => respond 401 (ErrorJson (js "User not found")) db []
    | Some user =>
    let userId := User.id user in
    match Req.body req with
    | None =>
        (* destructuring [undefined] throws; the outer [catch] answers *)
        respond 500 (ErrorJson (js "Internal server error")) db []
    | Some body =>
    let fileId := Req.fileId body in
    match fileId with
    | None => respond 400 (ErrorJson (js "File ID is required")) db []
    | Some fileId =>
    if isEmpty fileId then
      respond 400 (ErrorJson (js "File ID is required")) db []
    else
    match filesDB_findById c db fileId with
    | None => respond 404 (ErrorJson (js "File not found")) db []
    | Some file =>
    if negb (strictEq (File.userId file) userId) then
      respond 403 (ErrorJson (js "Not authorized to update this file")) db []
    else
    match File.transcript file with
    | None =>
        respond 400 (ErrorJson (js "File has no transcript to summarize")) db []
    | Some transcript =>
    if isEmpty transcript then
      respond 400 (ErrorJson (js "File has no transcript to summarize")) db []
    else if falsy (GEMINI_API_KEY rt) then
      respond 500
        (ErrorJson (js "AI service not configured. Please set up GEMINI_API_KEY."))
        db []
    else
      match generateSummary rt transcript with
      | (tr, Returned newSummary) =>
          if isEmpty newSummary || includes newSummary (js "failed") then
            respond 500
              (ErrorJson (js "AI summary generation failed. Please try again."))
              db tr
          else
            let patch :=
              Patch.mk newSummary (stringOr (File.topic file) (js "General")) in
            let (db', updatedFile) := filesDB_update c db (File.id file) patch in
            let tr' := tr ++ [Update (File.id file) patch] in
            match updatedFile with
            | None =>
                respond 500 (ErrorJson (js "Failed to save updated summary")) db' tr'
            | Some _ =>
                respond 200
                  (SuccessJson (js "Summary regenerated successfully") newSummary)
                  db' tr'
            end
      | (tr, Thrown err) =>
          respond 500 (ErrorDetailsJson (js "Failed to regenerate summary") err) db tr
      end
    end end end end end end.

(** ** A file store *)

(** Modelled from the spec: [utils/database.js] is not among the sources.
    The spec gives the file store as a collaborator with
    [findById(id) -> File|null] and [update(id, patch) -> File|null], where
    the write puts the new summary and topic back into the record; here the
    store is the list of its records, looked up by their [id]. *)
Module ListStore.
Definition t : Type := list File.t.

Definition hasId (id : jsstring) (f : File.t) : bool := strictEq (File.id f) id.

Definition findById (db : t) (id : jsstring) : option File.t := find (hasId id) db.

Definition merge (f : File.t) (p : Patch.t) : File.t :=
  File.mk (File.id f) (File.userId f) (File.transcript f)
          (Some (Patch.summary p)) (Some (Patch.topic p)).

Fixpoint write (db : t) (id : jsstring) (p : Patch.t) : t :=
  match db with
  | [] => []
  | f :: db' => if hasId id f then merge f p :: db' else f :: write db' id p
  end.

Definition update (db : t) (id : jsstring) (p : Patch.t) : t * option File.t :=
  match findById db id with
  | Some f => (write db id p, Some (merge f p))
  | None => (db, None)
  end.
End ListStore.

(** ** Vocabulary of the properties *)

(** The generated text the route extracts from an upstream reply, when it
    gets that far: the request resolved, the status is a success, the body
    parses and the property chain does not throw. *)
Definition extractedText (reply : FetchResult) : option Json :=
  match reply with
  | Rejected => None
  | Resolved r =>
      if Response.ok r then
        match Response.json r with
        | Some data =>
            match generatedTextOf data with
            | (_, Returned generatedText) => Some generatedText
            | (_, Thrown _) => None
            end
        | None => None
        end
      else None
  end.

(** The ways in which the retry generator fails to produce a summary. *)
Inductive FailureKind : Type := HttpError | ParseMiss | TooShort.

(** [RetryFailure rt text k]: running [generateSummaryRetry] on [text], the
    upstream answers with a non-success status ([HttpError]), with a text
    that has no [SUMMARY:] marker ([ParseMiss]), or with a text whose
    extracted summary is under 20 code units ([TooShort]). *)
Inductive RetryFailure (rt : Runtime) (text : jsstring) : FailureKind -> Prop :=
| FailsHttp r :
    fetch rt (endpoint rt) (summaryPromptOf text) = Resolved r ->
    Response.ok r = false ->
    RetryFailure rt text HttpError
| FailsParse g :
    extractedText (fetch rt (endpoint rt) (summaryPromptOf text)) = Some (JString g) ->
    includes g (js "SUMMARY:") = false ->
    RetryFailure rt text ParseMiss
| FailsShort g group1 :
    extractedText (fetch rt (endpoint rt) (summaryPromptOf text)) = Some (JString g) ->
    matchSummary g = Some group1 ->
    jsLength (trim group1) < 20 ->
    RetryFailure rt text TooShort.

(** The string the retry generator returns for each kind of failure. *)
Definition retrySentinel (k : FailureKind) : jsstring :=
  match k with
  | HttpError => js "AI summary generation failed after retry"
  | ParseMiss => js "AI summary generation failed after retry"
  | TooShort => js "AI summary generation failed after retry - please regenerate manually."
  end.

(** ** Test doubles

    Stand-ins for the collaborators and for the upstream endpoint, for the
    places where a property is exercised on a concrete request. *)
Module Mock.
Definition alice : User.t := User.mk (js "u1") (js "alice@example.com").

(** The token is the value of the [authorization] header. *)
Definition getToken (req : Req.t) : option jsstring :=
  option_map snd
    (find (fun h => strictEq (fst h) (js "authorization")) (Req.headers req)).

Definition verify (token : option jsstring) : option Decoded :=
  match token with
  | Some t =>
      if strictEq t (js "token-alice")
      then Some {| decodedEmail := js "alice@example.com" |}
      else None
  | None => None
  end.

Definition findByEmail (email : jsstring) : option User.t :=
  if strictEq email (User.email alice) then Some alice else None.

(** The route's collaborators, with the list store behind [filesDB]. *)
Definition collaborators : Collaborators ListStore.t :=
  {| getTokenFromRequest := getToken;
     verifyToken := verify;
     usersDB_findByEmail := findByEmail;
     filesDB_findById := ListStore.findById;
     filesDB_update := ListStore.update |}.

(** A POST of [{ fileId }] carrying Alice's token. *)
Definition post (fileId : jsstring) : Req.t :=
  Req.mk (js "POST")
         [(js "authorization", js "token-alice")]
         (Some (Req.mkBody (Some fileId))).

Definition fileOf (id owner : jsstring) (transcript : option jsstring) : File.t :=
  File.mk id owner transcript None None.

(** A reply [{ candidates: [{ content: { parts: [{ text }] } }] }]. *)
Definition candidates (text : jsstring) : Json :=
  JObject [(js "candidates",
            JArray [JObject [(js "content",
                              JObject [(js "parts",
                                        JArray [JObject [(js "text", JString text)]])])]])].

(** An endpoint that always answers 200 with the given generated text. *)
Definition answering (text : jsstring) : Runtime :=
  {| GEMINI_API_KEY := Some (js "test-key");
     fetch := fun _ _ => Resolved (Response.mk true 200 [] (Some (candidates text))) |}.

(** An endpoint that always answers with an error status and body. *)
Definition failing (status : N) (errorText : jsstring) : Runtime :=
  {| GEMINI_API_KEY := Some (js "test-key");
     fetch := fun _ _ => Resolved (Response.mk false status errorText None) |}.

(** The reply of the end-to-end scenario. *)
Definition testReply : jsstring :=
  js "SUMMARY: This is a test summary that is long enough." ++ LF ++ js "TOPICS: a, b".

Definition testSummary : jsstring :=
  js "This is a test summary that is long enough.".
End Mock.

(** More stand-ins: an endpoint with one fixed response, a network that
    fails, a process without the key, and a file store that refuses the
    write. *)
Module Stub.
Definition resolving (r : Response.t) : Runtime :=
  {| GEMINI_API_KEY := Some (js "test-key"); fetch := fun _ _ => Resolved r |}.

Definition rejecting : Runtime :=
  {| GEMINI_API_KEY := Some (js "test-key"); fetch := fun _ _ => Rejected |}.

Definition unconfigured : Runtime :=
  {| GEMINI_API_KEY := None; fetch := fun _ _ => Rejected |}.

Definition readOnly : Collaborators ListStore.t :=
  {| getTokenFromRequest := Mock.getToken;
     verifyToken := Mock.verify;
     usersDB_findByEmail := Mock.findByEmail;
     filesDB_findById := ListStore.findById;
     filesDB_update := fun db _ _ => (db, None) |}.
End Stub.

(** [resolves c db req user file]: the request is a POST whose token
    verifies and names [user], and whose [fileId] is the id of [file] in the
    file store. *)
Definition resolves {DB : Type} (c : Collaborators DB) (db : DB) (req : Req.t)
    (user : User.t) (file : File.t) : Prop :=
  Req.method req = js "POST"
  /\ (exists decoded,
        verifyToken c (getTokenFromRequest c req) = Some decoded
        /\ usersDB_findByEmail c (decodedEmail decoded) = Some user)
  /\ (exists body fileId,
        Req.body req = Some body
        /\ Req.fileId body = Some fileId
        /\ fileId <> []
        /\ filesDB_findById c db fileId = Some file).

(** ** The landing page

    The state of the [Home] component and the two handlers that change it.
    Each handler closes over the state of the render it belongs to, and the
    component renders again after every event, so an event is one step from
    the current state. *)
Module Home.
(** [useState(false)] and [useState(null)] *)
Record State : Type := mk {
  showSupportedFormats : bool;
  openFaq : option nat
}.

Definition initial : State := mk false None.

(** The [faqs] array: question and answer. *)
Definition faqs : list (jsstring * jsstring) :=
  [ (js "Is Ecouter Transcribe really free to use?",
     js "Yes, Ecouter Transcribe is completely free to use with no hidden costs. There are no premium services, subscriptions, or credit card requirements. You can transcribe your audio and video files without any limitations.");
    (js "What file formats are supported?",
     js "We support all major audio formats (MP3, WAV, M4A, FLAC, AAC) and video formats (MP4, MOV, AVI, MKV, WMV).");
    (js "How accurate is the transcription?",
     js "Our AI achieves 95%+ accuracy for clear audio with minimal background noise. Results improve with high-quality recordings.");
    (js "Is my data secure?",
     js "Yes, all files are encrypted during upload and processing. We never share your content with third parties.");
    (js "What's the maximum file size?",
     js "You can upload files up to 500MB or 4 hours of audio/video content.");
    (js "Do you offer speaker identification?",
     js "Yes, our advanced AI can identify and label up to 10 different speakers in your audio.") ].

(** What the user can do to the state: press the button of the question at
    [index] of [faqs.map], or close the modal. *)
Inductive Action : Type :=
| ClickFaq (index : nat)
| CloseModal.

(** [openFaq === index] *)
Definition isOpen (st : State) (index : nat) : bool :=
  match openFaq st with
  | Some i => Nat.eqb i index
  | None => false
  end.

(** [setOpenFaq(openFaq === index ? null : index)] and
    [setShowSupportedFormats(false)] *)
Definition step (st : State) (a : Action) : State :=
  match a with
  | ClickFaq index =>
      mk (showSupportedFormats st) (if isOpen st index then None else Some index)
  | CloseModal => mk false (openFaq st)
  end.

Definition run (st : State) (actions : list Action) : State :=
  fold_left step actions st.

(** The FAQ section as rendered: every question, and the answer of the one
    for which [openFaq === index] holds. *)
Fixpoint renderFrom (st : State) (index : nat) (items : list (jsstring * jsstring))
  : list (jsstring * option jsstring) :=
  match items with
  | [] => []
  | (question, answer) :: items' =>
      (question, if isOpen st index then Some answer else None)
      :: renderFrom st (S index) items'
  end.

Definition renderFaqs (st : State) : list (jsstring * option jsstring) :=
  renderFrom st 0 faqs.

(** The answers on screen. *)
Definition shownAnswers (st : State) : list jsstring :=
  flat_map (fun item => match snd item with Some a => [a] | None => [] end)
           (renderFaqs st).
End Home.

(** ** Reading a decimal numeral

    What it means for a string to be the decimal numeral of a number, said
    without the printer: every code unit is a digit, the digits read from
    the left give the number, and there is no leading zero. *)

(** [c] is one of the code units of [0] to [9]. *)
Definition isDigit (c : N) : bool := (48 <=? c) && (c <=? 57).

(** The number a string of digits stands for, read from the left. *)
Definition decimalValue (s : jsstring) : N :=
  fold_left (fun acc c => 10 * acc + (c - 48)) s 0.

(** The digits of a numeral, read from the left with a carry. *)
Fixpoint valueFrom (acc : N) (d : Decimal.uint) : N :=
  match d with
  | Decimal.Nil => acc
  | Decimal.D0 d' => valueFrom (10 * acc + 0) d'
  | Decimal.D1 d' => valueFrom (10 * acc + 1) d'
  | Decimal.D2 d' => valueFrom (10 * acc + 2) d'
  | Decimal.D3 d' => valueFrom (10 * acc + 3) d'
  | Decimal.D4 d' => valueFrom (10 * acc + 4) d'
  | Decimal.D5 d' => valueFrom (10 * acc + 5) d'
  | Decimal.D6 d' => valueFrom (10 * acc + 6) d'
  | Decimal.D7 d' => valueFrom (10 * acc + 7) d'
  | Decimal.D8 d' => valueFrom (10 * acc + 8) d'
  | Decimal.D9 d' => valueFrom (10 * acc + 9) d'
  end.

(** [s] is the numeral of [n] as JavaScript prints an integer. *)
Definition isDecimalOf (n : N) (s : jsstring) : Prop :=
  s <> []
  /\ forallb isDigit s = true
  /\ decimalValue s = n
  /\ (startsWith s (js "0") = true -> s = js "0").

(** * Properties *)

(** ** Strings *)

Lemma strictEq_refl (a : jsstring) : strictEq a a = true.
Proof.
  induction a as [|x a IH]; simpl; [reflexivity|].
  now rewrite N.eqb_refl.
Qed.

Lemma strictEq_eq (a b : jsstring) : strictEq a b = true <-> a = b.
Proof.
  split; [|intros ->; apply strictEq_refl].
  revert b; induction a as [|x a IH]; intros [|y b]; simpl; try discriminate; auto.
  intros H; apply andb_true_iff in H as [Hxy Hab].
  apply N.eqb_eq in Hxy; subst y.
  now rewrite (IH b Hab).
Qed.

Lemma strictEq_neq (a b : jsstring) : strictEq a b = false <-> a <> b.
Proof.
  rewrite <- strictEq_eq. now destruct (strictEq a b).
Qed.

Lemma isEmpty_false (s : jsstring) : isEmpty s = false <-> s <> [].
Proof.
  destruct s; simpl; split; congruence.
Qed.

Lemma jsLength_zero (s : jsstring) : jsLength s = 0 <-> s = [].
Proof.
  unfold jsLength; destruct s; simpl; split; try congruence; lia.
Qed.


Lemma trimStart_snoc (s : jsstring) (c : N) :
  isWhiteSpace c = false -> trimStart (s ++ [c]) = trimStart s ++ [c].
Proof.
  intros Hc; induction s as [|x s IH]; simpl.
  - now rewrite Hc.
  - destruct (isWhiteSpace x); [exact IH | reflexivity].
Qed.




(** A string that starts with something other than white space is not
    blank. *)
Lemma isBlank_head (c : N) (s : jsstring) :
  isWhiteSpace c = false -> isBlank (c :: s) = false.
Proof.
  intros Hc. unfold isBlank. cbn [isEmpty orb].
  apply N.eqb_neq. rewrite jsLength_zero.
  unfold trim. cbn [trimStart]. rewrite Hc.
  unfold trimEnd. cbn [rev]. rewrite trimStart_snoc by exact Hc.
  rewrite rev_app_distr. discriminate.
Qed.

Lemma startsWith_app (p s : jsstring) : startsWith (p ++ s) p = true.
Proof.
  induction p as [|x p IH]; simpl; [now destruct s|].
  now rewrite N.eqb_refl.
Qed.

Lemma startsWith_includes (s p : jsstring) :
  startsWith s p = true -> includes s p = true.
Proof.
  intros H; destruct s; cbn [includes]; now rewrite H.
Qed.

Lemma includes_app (a b c : jsstring) : includes (a ++ b ++ c) b = true.
Proof.
  induction a as [|x a IH]; simpl.
  - apply startsWith_includes, startsWith_app.
  - rewrite IH. apply orb_true_r.
Qed.

Lemma includes_startsWith (s p : jsstring) :
  includes s p = false -> startsWith s p = false.
Proof.
  destruct s; cbn [includes]; intros H; apply orb_false_iff in H; tauto.
Qed.

(** ** The regular expression *)

(** The pattern on a few replies: the section ends at [TOPICS:] or at the
    end of the text and may span lines; the white space after the marker is
    skipped, except for the last code unit when nothing else follows; a text
    that ends with the marker does not match. *)
Example matchSummary_until_topics :
  matchSummary (js "Sure. SUMMARY:  Two lines," ++ LF ++ js "one summary. TOPICS: a")
  = Some (js "Two lines," ++ LF ++ js "one summary. ").
Proof. reflexivity. Qed.

Example matchSummary_until_end :
  matchSummary (js "SUMMARY: no topics follow") = Some (js "no topics follow").
Proof. reflexivity. Qed.

Example matchSummary_only_spaces :
  matchSummary (js "SUMMARY:  ") = Some (js " ").
Proof. reflexivity. Qed.

Example matchSummary_topics_first :
  matchSummary (js "SUMMARY: TOPICS: a") = Some (js "TOPICS: a").
Proof. reflexivity. Qed.

Example matchSummary_marker_last :
  matchSummary (js "The SUMMARY:") = None.
Proof. reflexivity. Qed.

(** Without the marker the pattern matches nowhere. *)
Lemma matchSummary_no_marker (s : jsstring) :
  includes s (js "SUMMARY:") = false -> matchSummary s = None.
Proof.
  induction s as [|c s IH]; intros H; [reflexivity|].
  assert (Hs := includes_startsWith _ _ H).
  cbn [includes] in H. apply orb_false_iff in H as [_ H].
  cbn [matchSummary]. unfold matchHere. rewrite Hs. auto.
Qed.

(** Group 1 is never empty: [.+?] takes at least one code unit. *)
Lemma dotPlusLazy_nonempty (s m : jsstring) : dotPlusLazy s = Some m -> m <> [].
Proof.
  destruct s as [|c s]; simpl; [discriminate|].
  destruct (lookahead s); [intros [= <-]; discriminate|].
  destruct (dotPlusLazy s); simpl; [intros [= <-]; discriminate | discriminate].
Qed.

Lemma spacesGreedy_nonempty (s m : jsstring) : spacesGreedy s = Some m -> m <> [].
Proof.
  revert m; induction s as [|c s IH]; intros m; simpl; [discriminate|].
  destruct (isWhiteSpace c).
  - destruct (spacesGreedy s) eqn:E.
    + intros [= <-]. now apply IH.
    + apply (dotPlusLazy_nonempty (c :: s)).
  - apply (dotPlusLazy_nonempty (c :: s)).
Qed.

Lemma matchSummary_nonempty (s m : jsstring) : matchSummary s = Some m -> m <> [].
Proof.
  induction s as [|c s IH]; [discriminate|].
  cbn [matchSummary]. destruct (matchHere (c :: s)) eqn:E.
  - intros [= <-]. unfold matchHere in E.
    destruct (startsWith (c :: s) (js "SUMMARY:")); [|discriminate].
    now apply spacesGreedy_nonempty in E.
  - exact IH.
Qed.

(** ** [generateSummary] *)

(** Unfolds the monad and the steps of the generators. *)
Ltac run :=
  unfold generateSummary, generateSummaryRetry, tryCatch, bind, doFetch,
    responseJson, stringMatch, throw, ret in *.

Lemma generatedTextOf_trace (data : Json) : fst (generatedTextOf data) = [].
Proof. destruct data; reflexivity. Qed.

Lemma extractedText_inv (reply : FetchResult) (g : Json) :
  extractedText reply = Some g ->
  exists r data,
    reply = Resolved r /\ Response.ok r = true /\ Response.json r = Some data
    /\ generatedTextOf data = ([], Returned g).
Proof.
  destruct reply as [|r]; simpl; [discriminate|].
  destruct (Response.ok r) eqn:Hok; [|discriminate].
  destruct (Response.json r) as [data|] eqn:Hjson; [|discriminate].
  pose proof (generatedTextOf_trace data) as Htr.
  destruct (generatedTextOf data) as [tr [g'|e]] eqn:Hgen; [|discriminate].
  simpl in Htr; subst tr. intros [= <-].
  now exists r, data.
Qed.

(** Blank input is refused before anything is sent. *)
Lemma generateSummary_blank (rt : Runtime) (text : jsstring) :
  isBlank text = true ->
  generateSummary rt text = ([], Thrown (NewError (js "No transcript text provided"))).
Proof.
  intros H. run. now rewrite H.
Qed.

(** Any other input is sent once, truncated, and nothing else happens. *)
Lemma generateSummary_trace (rt : Runtime) (text : jsstring) :
  isBlank text = false ->
  fst (generateSummary rt text)
  = [Fetch (endpoint rt) (summaryPromptOf (truncatedTextOf text))].
Proof.
  intros H. run. rewrite H.
  destruct (fetch rt _ _) as [|r]; [reflexivity|].
  destruct (Response.ok r); [|reflexivity]. cbn [negb].
  destruct (Response.json r) as [data|]; [|reflexivity].
  pose proof (generatedTextOf_trace data) as Htr.
  destruct (generatedTextOf data) as [tr [g|e]]; simpl in Htr; subst tr;
    [|reflexivity].
  destruct (truthy g); [|reflexivity]. cbn [negb].
  destruct g; try reflexivity.
  match goal with |- context [if ?b then _ else _] => destruct b end; reflexivity.
Qed.

Lemma generateSummary_sent (rt : Runtime) (text url prompt : jsstring) :
  fst (generateSummary rt text) = [Fetch url prompt] ->
  isBlank text = false /\ url = endpoint rt
  /\ prompt = summaryPromptOf (truncatedTextOf text).
Proof.
  destruct (isBlank text) eqn:Hb.
  - rewrite generateSummary_blank by exact Hb. discriminate.
  - rewrite generateSummary_trace by exact Hb. intros [= <- <-]. auto.
Qed.

(** A non-success status is turned into the error of its category. *)
Lemma generateSummary_not_ok (rt : Runtime) (text : jsstring) (r : Response.t) :
  isBlank text = false ->
  fetch rt (endpoint rt) (summaryPromptOf (truncatedTextOf text)) = Resolved r ->
  Response.ok r = false ->
  snd (generateSummary rt text)
  = Thrown (statusError (Response.status r) (Response.text r)).
Proof.
  intros Hb Hf Hok. run. rewrite Hb, Hf, Hok. reflexivity.
Qed.

(** A reply with a non-empty generated text goes through the pattern, the
    trim and the length check. *)
Lemma generateSummary_parsed (rt : Runtime) (text g : jsstring) :
  isBlank text = false ->
  extractedText (fetch rt (endpoint rt) (summaryPromptOf (truncatedTextOf text)))
  = Some (JString g) ->
  g <> [] ->
  snd (generateSummary rt text)
  = let summary :=
      match matchSummary g with
      | Some group1 => trim group1
      | None => js "AI-generated summary not available"
      end in
    if isEmpty summary || (jsLength summary <? 20)
    then Thrown (NewError (js "Generated summary is too short or invalid"))
    else Returned summary.
Proof.
  intros Hb Hx Hg.
  apply extractedText_inv in Hx as (r & data & Hf & Hok & Hjson & Hgen).
  run. rewrite Hb, Hf, Hok, Hjson, Hgen. cbn [negb truthy].
  destruct g as [|c g]; [congruence|]. cbn [isEmpty negb].
  cbv zeta.
  match goal with |- context [if ?b then _ else _] => destruct b end; reflexivity.
Qed.

(** A reply without the marker leaves the initial value of [summary] in
    place; it is 34 code units long and passes the length check. *)
Lemma generateSummary_no_marker (rt : Runtime) (text g : jsstring) :
  isBlank text = false ->
  extractedText (fetch rt (endpoint rt) (summaryPromptOf (truncatedTextOf text)))
  = Some (JString g) ->
  g <> [] ->
  includes g (js "SUMMARY:") = false ->
  snd (generateSummary rt text) = Returned (js "AI-generated summary not available").
Proof.
  intros Hb Hx Hg Hm.
  rewrite (generateSummary_parsed rt text g Hb Hx Hg).
  now rewrite (matchSummary_no_marker g Hm).
Qed.

(** C1 (the claim: a reply whose generated text has no [SUMMARY:] marker
    makes [generateSummary] fail as invalid or too short).  The code does
    not: on the reply [The meeting covered budget planning.], which has no
    marker, [generateSummary] returns the string
    [AI-generated summary not available], and the handler stores it as the
    file's summary and answers 200. *)
Theorem generateSummary_missing_marker_returns_placeholder :
  let reply := js "The meeting covered budget planning." in
  let rt := Mock.answering reply in
  let db := [Mock.fileOf (js "f1") (js "u1") (Some (js "hello"))] in
  includes reply (js "SUMMARY:") = false
  /\ snd (generateSummary rt (js "hello"))
     = Returned (js "AI-generated summary not available")
  /\ handler Mock.collaborators rt db (Mock.post (js "f1"))
     = (Res.mk 200 (SuccessJson (js "Summary regenerated successfully")
                                (js "AI-generated summary not available")),
        [File.mk (js "f1") (js "u1") (Some (js "hello"))
                 (Some (js "AI-generated summary not available"))
                 (Some (js "General"))],
        [Fetch (endpoint rt) (summaryPromptOf (js "hello"));
         Update (js "f1") (Patch.mk (js "AI-generated summary not available")
                                    (js "General"))]).
Proof.
  cbv zeta. repeat split; vm_compute; reflexivity.
Qed.

(** C3: a transcript that [generateSummary] accepts is sent upstream exactly
    once; when it is longer than 32000 code units the prompt embeds its first
    32000 code units and nothing after them, otherwise the prompt embeds the
    transcript unchanged. *)
Theorem generateSummary_prompt_keeps_prefix (rt : Runtime) (text : jsstring) :
  isBlank text = false ->
  (32000 < jsLength text ->
   fst (generateSummary rt text)
   = [Fetch (endpoint rt) (promptHead ++ firstn (N.to_nat 32000) text ++ promptTail)]
   /\ jsLength (firstn (N.to_nat 32000) text) = 32000)
  /\ (jsLength text <= 32000 ->
      fst (generateSummary rt text)
      = [Fetch (endpoint rt) (promptHead ++ text ++ promptTail)]).
Proof.
  intros Hb. rewrite (generateSummary_trace rt text Hb).
  unfold summaryPromptOf, truncatedTextOf, substring0, maxTranscriptLength.
  split; intros Hlen.
  - apply N.ltb_lt in Hlen as Hlt. rewrite Hlt. split; [reflexivity|].
    unfold jsLength in *. rewrite length_firstn. lia.
  - apply N.ltb_ge in Hlen. now rewrite Hlen.
Qed.

(** A transcript of 32001 code units: the last one is not sent. *)
Lemma generateSummary_prompt_keeps_prefix_witness :
  let text := 97 :: repeat 97 (N.to_nat 31999) ++ [98] in
  let rt := Mock.answering Mock.testReply in
  isBlank text = false /\ 32000 < jsLength text
  /\ fst (generateSummary rt text)
     = [Fetch (endpoint rt)
          (promptHead ++ firstn (N.to_nat 32000) text ++ promptTail)]
  /\ jsLength (firstn (N.to_nat 32000) text) = 32000.
Proof.
  cbv zeta.
  assert (Hb : isBlank (97 :: repeat 97 (N.to_nat 31999) ++ [98]) = false)
    by (apply isBlank_head; reflexivity).
  assert (Hlen : 32000 < jsLength (97 :: repeat 97 (N.to_nat 31999) ++ [98])).
  { unfold jsLength. cbn [length]. rewrite length_app, repeat_length.
    cbn [length]. lia. }
  split; [exact Hb|]. split; [exact Hlen|].
  exact (proj1 (generateSummary_prompt_keeps_prefix
                  (Mock.answering Mock.testReply)
                  (97 :: repeat 97 (N.to_nat 31999) ++ [98]) Hb) Hlen).
Defined.

Lemma statusError_generic (status : N) (errorText : jsstring) :
  status <> 401 -> status <> 403 -> status <> 429 ->
  statusError status errorText
  = NewError (js "Gemini API error: " ++ numberToString status
              ++ js " - " ++ errorText).
Proof.
  intros H1 H2 H3. unfold statusError.
  apply N.eqb_neq in H1, H2, H3. now rewrite H1, H2, H3.
Qed.

(** *** What [String(status)] prints *)

Lemma fold_digits (d : Decimal.uint) (acc : N) :
  fold_left (fun a c => 10 * a + (c - 48)) (digits d) acc = valueFrom acc d.
Proof.
  revert acc; induction d; intros acc; cbn [digits fold_left valueFrom];
    [reflexivity | rewrite IHd; f_equal ..].
Qed.

Lemma valueFrom_revapp (d d' : Decimal.uint) :
  DecimalPos.Unsigned.of_lu (Decimal.revapp d d')
  = valueFrom (DecimalPos.Unsigned.of_lu d') d.
Proof.
  revert d'; induction d; intros d'; cbn [Decimal.revapp valueFrom];
    [reflexivity | rewrite IHd; cbn [DecimalPos.Unsigned.of_lu]; f_equal; lia ..].
Qed.

Lemma digits_are_digits (d : Decimal.uint) : forallb isDigit (digits d) = true.
Proof.
  induction d; cbn [digits forallb]; [reflexivity | rewrite IHd; reflexivity ..].
Qed.

Lemma nzhead_no_zero (d : Decimal.uint) :
  match Decimal.nzhead d with
  | Decimal.D0 _ => False
  | _ => True
  end.
Proof.
  induction d; cbn [Decimal.nzhead]; auto.
Qed.

(** The printer gives the numeral of its argument: digits only, the right
    value, no leading zero. *)
Lemma numberToString_decimal (n : N) : isDecimalOf n (numberToString n).
Proof.
  unfold isDecimalOf, numberToString. repeat split.
  - pose proof (DecimalN.Unsigned.to_of (N.to_uint n)) as Hnorm.
    rewrite DecimalN.Unsigned.of_to in Hnorm.
    destruct (N.to_uint n); discriminate.
  - apply digits_are_digits.
  - unfold decimalValue. rewrite fold_digits.
    change 0 with (DecimalPos.Unsigned.of_lu Decimal.Nil) at 1.
    rewrite <- valueFrom_revapp.
    change (Decimal.revapp (N.to_uint n) Decimal.Nil) with (Decimal.rev (N.to_uint n)).
    rewrite <- DecimalPos.Unsigned.of_uint_alt.
    apply DecimalN.Unsigned.of_to.
  - pose proof (DecimalN.Unsigned.to_of (N.to_uint n)) as Hnorm.
    rewrite DecimalN.Unsigned.of_to in Hnorm.
    pose proof (nzhead_no_zero (N.to_uint n)) as Hz.
    unfold Decimal.unorm in Hnorm.
    destruct (Decimal.nzhead (N.to_uint n)) eqn:Hh;
      rewrite Hnorm; try reflexivity; try discriminate; try contradiction.
Qed.

(** C5: when the upstream answers the request of [generateSummary] with a
    non-success status, [generateSummary] throws an error whose message is
    the invalid-key one for 401, the access-forbidden one for 403, the
    rate-limit one for 429 and otherwise [Gemini API error: ], the status
    code as a decimal numeral, [ - ] and the body; the four messages are
    pairwise distinct. *)
Theorem generateSummary_status_messages
    (rt : Runtime) (text url prompt : jsstring) (r : Response.t) :
  fst (generateSummary rt text) = [Fetch url prompt] ->
  fetch rt url prompt = Resolved r ->
  Response.ok r = false ->
  let status := Response.status r in
  exists message,
    snd (generateSummary rt text) = Thrown (NewError message)
    /\ (status = 401 ->
        message = js "Invalid API key - please check GEMINI_API_KEY configuration")
    /\ (status = 403 ->
        message = js "API access forbidden - please check API key permissions")
    /\ (status = 429 ->
        message = js "API rate limit exceeded - please try again later")
    /\ (status <> 401 -> status <> 403 -> status <> 429 ->
        exists code,
          message = js "Gemini API error: " ++ code ++ js " - " ++ Response.text r
          /\ isDecimalOf status code
          /\ includes message code = true)
    /\ (forall other e401 e403 e429 e,
          other <> 401 -> other <> 403 -> other <> 429 ->
          NoDup [statusError 401 e401; statusError 403 e403;
                 statusError 429 e429; statusError other e]).
Proof.
  intros Hsent Hf Hok status.
  apply generateSummary_sent in Hsent as (Hb & -> & ->).
  pose proof (generateSummary_not_ok rt text r Hb Hf Hok) as Hthrown.
  fold status in Hthrown.
  assert (Hmsg : exists message, statusError status (Response.text r) = NewError message).
  { unfold statusError.
    destruct (status =? 401); [eexists; reflexivity|].
    destruct (status =? 403); [eexists; reflexivity|].
    destruct (status =? 429); eexists; reflexivity. }
  destruct Hmsg as [message Hmsg]. exists message.
  rewrite Hthrown. split; [now rewrite Hmsg|].
  split; [intros H; rewrite H in Hmsg; now injection Hmsg as <-|].
  split; [intros H; rewrite H in Hmsg; now injection Hmsg as <-|].
  split; [intros H; rewrite H in Hmsg; now injection Hmsg as <-|].
  split.
  - intros H1 H2 H3.
    rewrite (statusError_generic status _ H1 H2 H3) in Hmsg. injection Hmsg as <-.
    exists (numberToString status).
    split; [reflexivity|]. split; [apply numberToString_decimal|].
    exact (includes_app (js "Gemini API error: ") (numberToString status)
             (js " - " ++ Response.text r)).
  - intros other e401 e403 e429 e H1 H2 H3.
    rewrite (statusError_generic other e H1 H2 H3).
    change (statusError 401 e401)
      with (NewError (js "Invalid API key - please check GEMINI_API_KEY configuration")).
    change (statusError 403 e403)
      with (NewError (js "API access forbidden - please check API key permissions")).
    change (statusError 429 e429)
      with (NewError (js "API rate limit exceeded - please try again later")).
    repeat constructor; simpl; intuition discriminate.
Qed.

(** A rate limit, and a status of the generic kind: 500 is printed as
    [500]. *)
Lemma generateSummary_status_messages_witness :
  snd (generateSummary (Mock.failing 429 (js "quota")) (js "hello"))
  = Thrown (NewError (js "API rate limit exceeded - please try again later"))
  /\ (exists code,
        snd (generateSummary (Mock.failing 500 (js "boom")) (js "hello"))
        = Thrown (NewError (js "Gemini API error: " ++ code ++ js " - boom"))
        /\ isDecimalOf 500 code)
  /\ snd (generateSummary (Mock.failing 500 (js "boom")) (js "hello"))
     = Thrown (NewError (js "Gemini API error: 500 - boom")).
Proof.
  split; [|split; [|reflexivity]].
  - destruct (generateSummary_status_messages
                (Mock.failing 429 (js "quota")) (js "hello")
                (endpoint (Mock.failing 429 (js "quota")))
                (summaryPromptOf (js "hello"))
                (Response.mk false 429 (js "quota") None)
                eq_refl eq_refl eq_refl)
      as (message & Hthrown & _ & _ & H429 & _).
    rewrite Hthrown. now rewrite (H429 eq_refl).
  - destruct (generateSummary_status_messages
                (Mock.failing 500 (js "boom")) (js "hello")
                (endpoint (Mock.failing 500 (js "boom")))
                (summaryPromptOf (js "hello"))
                (Response.mk false 500 (js "boom") None)
                eq_refl eq_refl eq_refl)
      as (message & Hthrown & _ & _ & _ & Hgeneric & _).
    destruct (Hgeneric ltac:(discriminate) ltac:(discriminate) ltac:(discriminate))
      as (code & Hmessage & Hdecimal & _).
    exists code. split; [|exact Hdecimal].
    rewrite Hthrown. now rewrite Hmessage.
Defined.

(** C6: when the upstream reply has a [SUMMARY:] section (the pattern
    matches) and the trimmed text of the section is shorter than 20 code
    units, [generateSummary] throws instead of returning it. *)
Theorem generateSummary_short_summary_throws
    (rt : Runtime) (text url prompt g group1 : jsstring) :
  fst (generateSummary rt text) = [Fetch url prompt] ->
  extractedText (fetch rt url prompt) = Some (JString g) ->
  matchSummary g = Some group1 ->
  jsLength (trim group1) < 20 ->
  snd (generateSummary rt text)
  = Thrown (NewError (js "Generated summary is too short or invalid")).
Proof.
  intros Hsent Hx Hm Hlen.
  apply generateSummary_sent in Hsent as (Hb & -> & ->).
  assert (Hg : g <> []) by (intros ->; discriminate).
  rewrite (generateSummary_parsed rt text g Hb Hx Hg), Hm. cbv zeta.
  apply N.ltb_lt in Hlen. rewrite Hlen. now rewrite orb_true_r.
Qed.

Lemma generateSummary_short_summary_throws_witness :
  let rt := Mock.answering (js "SUMMARY: Too short. TOPICS: a, b") in
  matchSummary (js "SUMMARY: Too short. TOPICS: a, b") = Some (js "Too short. ")
  /\ jsLength (trim (js "Too short. ")) < 20
  /\ snd (generateSummary rt (js "hello"))
     = Thrown (NewError (js "Generated summary is too short or invalid")).
Proof.
  cbv zeta.
  assert (Hm : matchSummary (js "SUMMARY: Too short. TOPICS: a, b")
               = Some (js "Too short. ")) by reflexivity.
  assert (Hlen : jsLength (trim (js "Too short. ")) < 20) by reflexivity.
  split; [exact Hm|]. split; [exact Hlen|].
  exact (generateSummary_short_summary_throws
           (Mock.answering (js "SUMMARY: Too short. TOPICS: a, b")) (js "hello")
           (endpoint (Mock.answering (js "SUMMARY: Too short. TOPICS: a, b")))
           (summaryPromptOf (js "hello"))
           (js "SUMMARY: Too short. TOPICS: a, b") (js "Too short. ")
           eq_refl eq_refl Hm Hlen).
Defined.

(** What a normal return of [generateSummary] tells: the returned string
    passed the final check, and it is either the trimmed group 1 of a match
    or the initial value of [summary]. *)
Lemma generateSummary_returned_inv
    (rt : Runtime) (text : jsstring) (tr : list Event) (summary : jsstring) :
  generateSummary rt text = (tr, Returned summary) ->
  isEmpty summary || (jsLength summary <? 20) = false
  /\ (summary = js "AI-generated summary not available"
      \/ exists g group1, matchSummary g = Some group1 /\ summary = trim group1).
Proof.
  destruct (isBlank text) eqn:Hb.
  { rewrite generateSummary_blank by exact Hb. discriminate. }
  run. rewrite Hb.
  destruct (fetch rt _ _) as [|r]; [discriminate|].
  destruct (Response.ok r); [|discriminate]. cbn [negb].
  destruct (Response.json r) as [data|]; [|discriminate].
  destruct (generatedTextOf data) as [tr0 [g|e]]; [|discriminate].
  destruct (truthy g); [|discriminate]. cbn [negb].
  destruct g as [| | |s| |]; try discriminate.
  cbv zeta.
  match goal with
  | |- context [if isEmpty ?x || _ then _ else _] => set (out := x)
  end.
  destruct (isEmpty out || (jsLength out <? 20)) eqn:Hcheck; [discriminate|].
  intros [= _ <-]. split; [exact Hcheck|].
  subst out. destruct (matchSummary s) as [group1|] eqn:Hm; [right | left; reflexivity].
  now exists s, group1.
Qed.



(** ** [generateSummaryRetry] *)

Lemma generateSummaryRetry_total (rt : Runtime) (text : jsstring) :
  exists s, snd (generateSummaryRetry rt text) = Returned s.
Proof.
  run.
  destruct (fetch rt _ _) as [|r]; [eexists; reflexivity|].
  destruct (Response.ok r); [|eexists; reflexivity]. cbn [negb].
  destruct (Response.json r) as [data|]; [|eexists; reflexivity].
  destruct (generatedTextOf data) as [tr [g|e]]; [|eexists; reflexivity].
  destruct g; try (eexists; reflexivity).
  cbv zeta.
  match goal with |- context [if ?b then _ else _] => destruct b end;
    eexists; reflexivity.
Qed.

Lemma generateSummaryRetry_parsed (rt : Runtime) (text g : jsstring) :
  extractedText (fetch rt (endpoint rt) (summaryPromptOf text)) = Some (JString g) ->
  snd (generateSummaryRetry rt text)
  = let summary :=
      match matchSummary g with
      | Some group1 => trim group1
      | None => js "AI summary generation failed after retry"
      end in
    if isEmpty summary || (jsLength summary <? 20)
    then Returned (js "AI summary generation failed after retry - please regenerate manually.")
    else Returned summary.
Proof.
  intros Hx.
  apply extractedText_inv in Hx as (r & data & Hf & Hok & Hjson & Hgen).
  run. rewrite Hf, Hok, Hjson, Hgen. cbn [negb]. cbv zeta.
  match goal with |- context [if ?b then _ else _] => destruct b end; reflexivity.
Qed.

(** C4, as the code has it: [generateSummaryRetry] never throws, and each
    kind of failure is answered with a fixed string: a non-success status
    and a reply without the marker with
    [AI summary generation failed after retry], an extracted summary under
    20 code units with
    [AI summary generation failed after retry - please regenerate manually.] *)
Theorem generateSummaryRetry_sentinels
    (rt : Runtime) (text : jsstring) (k : FailureKind) :
  RetryFailure rt text k ->
  snd (generateSummaryRetry rt text) = Returned (retrySentinel k)
  /\ (forall rt' text', exists s, snd (generateSummaryRetry rt' text') = Returned s).
Proof.
  intros Hfail. split; [|exact generateSummaryRetry_total].
  destruct Hfail as [r Hf Hok | g Hx Hm | g group1 Hx Hm Hlen].
  - run. now rewrite Hf, Hok.
  - rewrite (generateSummaryRetry_parsed rt text g Hx).
    now rewrite (matchSummary_no_marker g Hm).
  - rewrite (generateSummaryRetry_parsed rt text g Hx), Hm. cbv zeta.
    apply N.ltb_lt in Hlen. rewrite Hlen. now rewrite orb_true_r.
Qed.

Lemma generateSummaryRetry_sentinels_witness :
  snd (generateSummaryRetry (Mock.answering (js "SUMMARY: Too short.")) (js "hello"))
  = Returned (js "AI summary generation failed after retry - please regenerate manually.").
Proof.
  exact (proj1 (generateSummaryRetry_sentinels
                  (Mock.answering (js "SUMMARY: Too short.")) (js "hello") TooShort
                  (FailsShort (Mock.answering (js "SUMMARY: Too short.")) (js "hello")
                     (js "SUMMARY: Too short.") (js "Too short.")
                     eq_refl eq_refl eq_refl))).
Defined.

(** C4, as the claim has it (every failure returns one and the same
    sentinel), does not hold: an HTTP 500 and a reply with the short section
    [SUMMARY: Too short.] are both failures, and they are answered with two
    different strings. *)
Lemma generateSummaryRetry_two_sentinels :
  let onError := Mock.failing 500 (js "boom") in
  let onShort := Mock.answering (js "SUMMARY: Too short.") in
  RetryFailure onError (js "hello") HttpError
  /\ RetryFailure onShort (js "hello") TooShort
  /\ snd (generateSummaryRetry onError (js "hello"))
     = Returned (js "AI summary generation failed after retry")
  /\ snd (generateSummaryRetry onShort (js "hello"))
     = Returned (js "AI summary generation failed after retry - please regenerate manually.")
  /\ js "AI summary generation failed after retry"
     <> js "AI summary generation failed after retry - please regenerate manually.".
Proof.
  cbv zeta. split; [|split; [|split; [|split]]].
  - exact (FailsHttp (Mock.failing 500 (js "boom")) (js "hello")
             (Response.mk false 500 (js "boom") None) eq_refl eq_refl).
  - exact (FailsShort (Mock.answering (js "SUMMARY: Too short.")) (js "hello")
             (js "SUMMARY: Too short.") (js "Too short.") eq_refl eq_refl eq_refl).
  - reflexivity.
  - reflexivity.
  - discriminate.
Qed.

(** ** The handler *)

(** The trace of [generateSummary] holds no write to the file store. *)
Lemma generateSummary_no_update (rt : Runtime) (text id : jsstring) (p : Patch.t) :
  ~ In (Update id p) (fst (generateSummary rt text)).
Proof.
  destruct (isBlank text) eqn:Hb.
  - rewrite generateSummary_blank by exact Hb. simpl. tauto.
  - rewrite generateSummary_trace by exact Hb. simpl. intros [H|[]]. discriminate.
Qed.

(** A request that gets as far as the file: it is a POST, its token
    verifies and names a known user, it carries a [fileId], and the file
    store has a record for that id. *)
Section FileResolved.
Context {DB : Type}.
Variables (c : Collaborators DB) (rt : Runtime) (db : DB) (req : Req.t).
Variables (decoded : Decoded) (user : User.t) (body : Req.body_t).
Variables (fileId : jsstring) (file : File.t).

Hypothesis Hpost : Req.method req = js "POST".
Hypothesis Htoken : verifyToken c (getTokenFromRequest c req) = Some decoded.
Hypothesis Huser : usersDB_findByEmail c (decodedEmail decoded) = Some user.
Hypothesis Hbody : Req.body req = Some body.
Hypothesis HfileId : Req.fileId body = Some fileId.
Hypothesis Hgiven : fileId <> [].
Hypothesis Hfile : filesDB_findById c db fileId = Some file.

Local Ltac to_file :=
  unfold handler;
  rewrite Hpost, strictEq_refl; cbn [negb]; cbv zeta;
  rewrite Htoken, Huser, Hbody, HfileId,
    (proj2 (isEmpty_false fileId) Hgiven), Hfile.

(** C7: when the file belongs to another user the handler answers 403,
    leaves the file store as it was and calls neither the endpoint nor
    [filesDB.update] (the trace is empty). *)
Theorem handler_foreign_file_forbidden :
  File.userId file <> User.id user ->
  handler c rt db req
  = (Res.mk 403 (ErrorJson (js "Not authorized to update this file")), db, []).
Proof.
  intros Hother. to_file.
  now rewrite (proj2 (strictEq_neq _ _) Hother).
Qed.

(** C8: when the caller's file has no transcript ([null], absent or the
    empty string) the handler answers 400 and makes no outbound call (the
    trace is empty). *)
Theorem handler_empty_transcript_bad_request :
  File.userId file = User.id user ->
  falsy (File.transcript file) = true ->
  handler c rt db req
  = (Res.mk 400 (ErrorJson (js "File has no transcript to summarize")), db, []).
Proof.
  intros Hown Hempty. to_file.
  rewrite Hown, strictEq_refl. cbn [negb].
  destruct (File.transcript file) as [t|]; [|reflexivity].
  simpl in Hempty. now rewrite Hempty.
Qed.

(** C9: when [generateSummary] returns a string that contains [failed],
    the handler answers 500, leaves the file store as it was and never
    calls [filesDB.update]. *)
Theorem handler_rejects_summary_with_failed
    (transcript newSummary : jsstring) (tr : list Event) :
  File.userId file = User.id user ->
  File.transcript file = Some transcript ->
  transcript <> [] ->
  falsy (GEMINI_API_KEY rt) = false ->
  generateSummary rt transcript = (tr, Returned newSummary) ->
  includes newSummary (js "failed") = true ->
  handler c rt db req
  = (Res.mk 500 (ErrorJson (js "AI summary generation failed. Please try again.")),
     db, tr)
  /\ forall id patch, ~ In (Update id patch) tr.
Proof.
  intros Hown Htext Hsome Hkey Hgen Hfailed. split.
  - to_file. rewrite Hown, strictEq_refl. cbn [negb].
    rewrite Htext, (proj2 (isEmpty_false transcript) Hsome), Hkey, Hgen, Hfailed.
    now rewrite orb_true_r.
  - intros id patch.
    pose proof (generateSummary_no_update rt transcript id patch) as Hno.
    now rewrite Hgen in Hno.
Qed.

(** The path to the write: a summary that passes the handler's check is
    handed to [filesDB.update], and a store that accepts it gives 200. *)
Lemma handler_saves_summary
    (transcript newSummary : jsstring) (tr : list Event) (db' : DB) (saved : File.t) :
  File.userId file = User.id user ->
  File.transcript file = Some transcript ->
  transcript <> [] ->
  falsy (GEMINI_API_KEY rt) = false ->
  generateSummary rt transcript = (tr, Returned newSummary) ->
  includes newSummary (js "failed") = false ->
  filesDB_update c db (File.id file)
    (Patch.mk newSummary (stringOr (File.topic file) (js "General")))
  = (db', Some saved) ->
  handler c rt db req
  = (Res.mk 200 (SuccessJson (js "Summary regenerated successfully") newSummary),
     db',
     tr ++ [Update (File.id file)
              (Patch.mk newSummary (stringOr (File.topic file) (js "General")))]).
Proof.
  intros Hown Htext Hsome Hkey Hgen Hclean Hsave.
  assert (Hne : isEmpty newSummary = false).
  { apply generateSummary_returned_inv in Hgen as Hinv.
    destruct Hinv as [Hcheck _]. now apply orb_false_iff in Hcheck. }
  to_file. rewrite Hown, strictEq_refl. cbn [negb].
  rewrite Htext, (proj2 (isEmpty_false transcript) Hsome), Hkey, Hgen.
  rewrite Hne, Hclean. cbn [orb]. cbv zeta. now rewrite Hsave.
Qed.

(** A generator that throws gives 500 with the cause, and no write. *)
Lemma handler_reports_thrown (transcript : jsstring) (tr : list Event) (err : JsError) :
  File.userId file = User.id user ->
  File.transcript file = Some transcript ->
  transcript <> [] ->
  falsy (GEMINI_API_KEY rt) = false ->
  generateSummary rt transcript = (tr, Thrown err) ->
  handler c rt db req
  = (Res.mk 500 (ErrorDetailsJson (js "Failed to regenerate summary") err), db, tr).
Proof.
  intros Hown Htext Hsome Hkey Hgen.
  to_file. rewrite Hown, strictEq_refl. cbn [negb].
  now rewrite Htext, (proj2 (isEmpty_false transcript) Hsome), Hkey, Hgen.
Qed.

(** C2, as the code has it: for the caller's own file with a transcript
    that is not blank, with the API key configured and an upstream success
    reply whose generated text is
    [SUMMARY: This is a test summary that is long enough.], a line feed and
    [TOPICS: a, b], the handler calls [filesDB.update] once, for this file and
    with the summary [This is a test summary that is long enough.]; when the
    store returns the updated record the answer is 200 with that summary,
    and the store is the one [filesDB.update] left. *)
Theorem handler_end_to_end (transcript : jsstring) (db' : DB) (saved : File.t) :
  let reply :=
    js "SUMMARY: This is a test summary that is long enough."
    ++ LF ++ js "TOPICS: a, b" in
  let summary := js "This is a test summary that is long enough." in
  let patch := Patch.mk summary (stringOr (File.topic file) (js "General")) in
  let sent := Fetch (endpoint rt) (summaryPromptOf (truncatedTextOf transcript)) in
  File.userId file = User.id user ->
  File.transcript file = Some transcript ->
  isBlank transcript = false ->
  falsy (GEMINI_API_KEY rt) = false ->
  extractedText (fetch rt (endpoint rt) (summaryPromptOf (truncatedTextOf transcript)))
  = Some (JString reply) ->
  filesDB_update c db (File.id file) patch = (db', Some saved) ->
  handler c rt db req
  = (Res.mk 200 (SuccessJson (js "Summary regenerated successfully") summary),
     db', [sent; Update (File.id file) patch]).
Proof.
  intros reply summary patch sent Hown Htext Hb Hkey Hx Hsave.
  assert (Hsome : transcript <> []).
  { intros ->. discriminate. }
  assert (Hgen : generateSummary rt transcript = ([sent], Returned summary)).
  { rewrite (surjective_pairing (generateSummary rt transcript)).
    rewrite (generateSummary_trace rt transcript Hb).
    rewrite (generateSummary_parsed rt transcript reply Hb Hx)
      by (subst reply; discriminate).
    reflexivity. }
  exact (handler_saves_summary transcript summary [sent] db' saved
           Hown Htext Hsome Hkey Hgen eq_refl Hsave).
Qed.
End FileResolved.

Lemma handler_foreign_file_forbidden_witness :
  let db := [Mock.fileOf (js "f2") (js "u2") (Some (js "hello"))] in
  let rt := Mock.answering Mock.testReply in
  handler Mock.collaborators rt db (Mock.post (js "f2"))
  = (Res.mk 403 (ErrorJson (js "Not authorized to update this file")), db, []).
Proof.
  cbv zeta.
  apply (handler_foreign_file_forbidden
           Mock.collaborators (Mock.answering Mock.testReply)
           [Mock.fileOf (js "f2") (js "u2") (Some (js "hello"))]
           (Mock.post (js "f2"))
           {| decodedEmail := js "alice@example.com" |} Mock.alice
           (Req.mkBody (Some (js "f2"))) (js "f2")
           (Mock.fileOf (js "f2") (js "u2") (Some (js "hello"))));
    try reflexivity; discriminate.
Defined.

Lemma handler_empty_transcript_bad_request_witness :
  let db := [Mock.fileOf (js "f1") (js "u1") (Some [])] in
  let rt := Mock.answering Mock.testReply in
  handler Mock.collaborators rt db (Mock.post (js "f1"))
  = (Res.mk 400 (ErrorJson (js "File has no transcript to summarize")), db, []).
Proof.
  cbv zeta.
  apply (handler_empty_transcript_bad_request
           Mock.collaborators (Mock.answering Mock.testReply)
           [Mock.fileOf (js "f1") (js "u1") (Some [])]
           (Mock.post (js "f1"))
           {| decodedEmail := js "alice@example.com" |} Mock.alice
           (Req.mkBody (Some (js "f1"))) (js "f1")
           (Mock.fileOf (js "f1") (js "u1") (Some [])));
    try reflexivity; discriminate.
Defined.

(** A summary the model could well write: it reports that something
    failed. *)
Lemma handler_rejects_summary_with_failed_witness :
  let reply :=
    js "SUMMARY: The first deployment failed and the team rolled it back."
    ++ LF ++ js "TOPICS: deployment, rollback" in
  let summary := js "The first deployment failed and the team rolled it back." in
  let db := [Mock.fileOf (js "f1") (js "u1") (Some (js "hello"))] in
  let rt := Mock.answering reply in
  generateSummary rt (js "hello")
  = ([Fetch (endpoint rt) (summaryPromptOf (js "hello"))], Returned summary)
  /\ includes summary (js "failed") = true
  /\ handler Mock.collaborators rt db (Mock.post (js "f1"))
     = (Res.mk 500 (ErrorJson (js "AI summary generation failed. Please try again.")),
        db, [Fetch (endpoint rt) (summaryPromptOf (js "hello"))]).
Proof.
  cbv zeta.
  split; [reflexivity|]. split; [reflexivity|].
  eapply proj1.
  apply (handler_rejects_summary_with_failed
           Mock.collaborators
           (Mock.answering
              (js "SUMMARY: The first deployment failed and the team rolled it back."
               ++ LF ++ js "TOPICS: deployment, rollback"))
           [Mock.fileOf (js "f1") (js "u1") (Some (js "hello"))]
           (Mock.post (js "f1"))
           {| decodedEmail := js "alice@example.com" |} Mock.alice
           (Req.mkBody (Some (js "f1"))) (js "f1")
           (Mock.fileOf (js "f1") (js "u1") (Some (js "hello"))))
    with (transcript := js "hello")
         (newSummary := js "The first deployment failed and the team rolled it back.");
    try reflexivity; discriminate.
Defined.

Lemma handler_end_to_end_witness :
  let rt := Mock.answering Mock.testReply in
  handler Mock.collaborators rt
    [Mock.fileOf (js "f1") (js "u1") (Some (js "..."))] (Mock.post (js "f1"))
  = (Res.mk 200 (SuccessJson (js "Summary regenerated successfully") Mock.testSummary),
     [File.mk (js "f1") (js "u1") (Some (js "..."))
              (Some Mock.testSummary) (Some (js "General"))],
     [Fetch (endpoint rt) (summaryPromptOf (js "..."));
      Update (js "f1") (Patch.mk Mock.testSummary (js "General"))]).
Proof.
  cbv zeta.
  apply (handler_end_to_end
           Mock.collaborators (Mock.answering Mock.testReply)
           [Mock.fileOf (js "f1") (js "u1") (Some (js "..."))]
           (Mock.post (js "f1"))
           {| decodedEmail := js "alice@example.com" |} Mock.alice
           (Req.mkBody (Some (js "f1"))) (js "f1")
           (Mock.fileOf (js "f1") (js "u1") (Some (js "..."))))
    with (transcript := js "...")
         (saved := File.mk (js "f1") (js "u1") (Some (js "..."))
                     (Some Mock.testSummary) (Some (js "General")));
    try reflexivity; discriminate.
Defined.

(** C2, as the claim has it (any non-empty transcript), does not hold: a
    transcript of one space is not empty, so the handler lets it through,
    but [generateSummary] refuses it as blank; the answer is 500 and nothing
    is sent or written. *)
Lemma handler_blank_transcript_not_200 :
  let file := Mock.fileOf (js "f1") (js "u1") (Some (js " ")) in
  let db := [file] in
  let rt := Mock.answering Mock.testReply in
  let req := Mock.post (js "f1") in
  Req.method req = js "POST"
  /\ Mock.verify (Mock.getToken req) = Some {| decodedEmail := js "alice@example.com" |}
  /\ Mock.findByEmail (js "alice@example.com") = Some Mock.alice
  /\ ListStore.findById db (js "f1") = Some file
  /\ File.userId file = User.id Mock.alice
  /\ File.transcript file = Some (js " ")
  /\ js " " <> []
  /\ (forall url prompt,
        extractedText (fetch rt url prompt) = Some (JString Mock.testReply))
  /\ handler Mock.collaborators rt db req
     = (Res.mk 500 (ErrorDetailsJson (js "Failed to regenerate summary")
                      (NewError (js "No transcript text provided"))),
        db, []).
Proof.
  cbv zeta. repeat split; try reflexivity. discriminate.
Qed.

(** * Further properties of the route *)

(** ** The handler's gates, in the order of the source *)

(** X1: a request whose method is not POST is answered with 405 and
    [Method not allowed], whatever else it carries; nothing is looked up,
    sent or written. *)
Theorem handler_method_not_allowed
    {DB : Type} (c : Collaborators DB) (rt : Runtime) (db : DB) (req : Req.t) :
  Req.method req <> js "POST" ->
  handler c rt db req = (Res.mk 405 (ErrorJson (js "Method not allowed")), db, []).
Proof.
  intros Hm. unfold handler.
  now rewrite (proj2 (strictEq_neq _ _) Hm).
Qed.

Lemma handler_method_not_allowed_witness :
  let req := Req.mk (js "GET") [(js "authorization", js "token-alice")]
               (Some (Req.mkBody (Some (js "f1")))) in
  let db := [Mock.fileOf (js "f1") (js "u1") (Some (js "hello"))] in
  handler Mock.collaborators (Mock.answering Mock.testReply) db req
  = (Res.mk 405 (ErrorJson (js "Method not allowed")), db, []).
Proof.
  cbv zeta. apply handler_method_not_allowed. discriminate.
Defined.

(** X2: a POST whose token does not verify is answered with 401 and
    [Unauthorized]; one whose token verifies but names no known user is
    answered with 401 and [User not found].  Neither touches the file store
    or the endpoint. *)
Theorem handler_unauthorized
    {DB : Type} (c : Collaborators DB) (rt : Runtime) (db : DB) (req : Req.t) :
  Req.method req = js "POST" ->
  (verifyToken c (getTokenFromRequest c req) = None ->
   handler c rt db req = (Res.mk 401 (ErrorJson (js "Unauthorized")), db, []))
  /\ (forall decoded,
        verifyToken c (getTokenFromRequest c req) = Some decoded ->
        usersDB_findByEmail c (decodedEmail decoded) = None ->
        handler c rt db req = (Res.mk 401 (ErrorJson (js "User not found")), db, [])).
Proof.
  intros Hm. unfold handler. rewrite Hm, strictEq_refl. cbn [negb]. cbv zeta.
  split.
  - intros Hv. now rewrite Hv.
  - intros decoded Hv Hu. now rewrite Hv, Hu.
Qed.

Lemma handler_unauthorized_witness :
  let req := Req.mk (js "POST") [(js "authorization", js "token-mallory")]
               (Some (Req.mkBody (Some (js "f1")))) in
  let db := [Mock.fileOf (js "f1") (js "u1") (Some (js "hello"))] in
  handler Mock.collaborators (Mock.answering Mock.testReply) db req
  = (Res.mk 401 (ErrorJson (js "Unauthorized")), db, []).
Proof.
  cbv zeta.
  apply (proj1 (handler_unauthorized Mock.collaborators
                  (Mock.answering Mock.testReply)
                  [Mock.fileOf (js "f1") (js "u1") (Some (js "hello"))]
                  (Req.mk (js "POST") [(js "authorization", js "token-mallory")]
                     (Some (Req.mkBody (Some (js "f1")))))
                  eq_refl)).
  reflexivity.
Defined.

(** The requests of an authenticated caller. *)
Section Authenticated.
Context {DB : Type}.
Variables (c : Collaborators DB) (rt : Runtime) (db : DB) (req : Req.t).
Variables (decoded : Decoded) (user : User.t).

Hypothesis Hpost : Req.method req = js "POST".
Hypothesis Htoken : verifyToken c (getTokenFromRequest c req) = Some decoded.
Hypothesis Huser : usersDB_findByEmail c (decodedEmail decoded) = Some user.

Local Ltac to_body :=
  unfold handler;
  rewrite Hpost, strictEq_refl; cbn [negb]; cbv zeta;
  rewrite Htoken, Huser.

(** X3: an authenticated request without a usable [fileId] is refused before
    the file store is asked: a body whose [fileId] is missing or the empty
    string gives 400 and [File ID is required]; a request without a parsed
    body makes the destructuring throw and gives 500 and
    [Internal server error]. *)
Theorem handler_file_id_required :
  (forall body,
     Req.body req = Some body -> falsy (Req.fileId body) = true ->
     handler c rt db req = (Res.mk 400 (ErrorJson (js "File ID is required")), db, []))
  /\ (Req.body req = None ->
      handler c rt db req = (Res.mk 500 (ErrorJson (js "Internal server error")), db, [])).
Proof.
  split.
  - intros body Hb Hf. to_body. rewrite Hb.
    destruct (Req.fileId body) as [f|]; [|reflexivity].
    simpl in Hf. now rewrite Hf.
  - intros Hb. to_body. now rewrite Hb.
Qed.

(** X4: an authenticated request for an id the file store does not know is
    answered with 404 and [File not found]; nothing is sent or written. *)
Theorem handler_file_not_found (body : Req.body_t) (fileId : jsstring) :
  Req.body req = Some body ->
  Req.fileId body = Some fileId ->
  fileId <> [] ->
  filesDB_findById c db fileId = None ->
  handler c rt db req = (Res.mk 404 (ErrorJson (js "File not found")), db, []).
Proof.
  intros Hb Hf Hne Hnone. to_body.
  now rewrite Hb, Hf, (proj2 (isEmpty_false fileId) Hne), Hnone.
Qed.
End Authenticated.

Lemma handler_file_id_required_witness :
  let req := Req.mk (js "POST") [(js "authorization", js "token-alice")]
               (Some (Req.mkBody (Some []))) in
  let db := [Mock.fileOf (js "f1") (js "u1") (Some (js "hello"))] in
  handler Mock.collaborators (Mock.answering Mock.testReply) db req
  = (Res.mk 400 (ErrorJson (js "File ID is required")), db, []).
Proof.
  cbv zeta.
  apply (proj1 (handler_file_id_required Mock.collaborators
                  (Mock.answering Mock.testReply)
                  [Mock.fileOf (js "f1") (js "u1") (Some (js "hello"))]
                  (Req.mk (js "POST") [(js "authorization", js "token-alice")]
                     (Some (Req.mkBody (Some []))))
                  {| decodedEmail := js "alice@example.com" |} Mock.alice
                  eq_refl eq_refl eq_refl)
           (Req.mkBody (Some [])) eq_refl eq_refl).
Defined.

Lemma handler_file_not_found_witness :
  let db := [Mock.fileOf (js "f1") (js "u1") (Some (js "hello"))] in
  handler Mock.collaborators (Mock.answering Mock.testReply) db (Mock.post (js "f9"))
  = (Res.mk 404 (ErrorJson (js "File not found")), db, []).
Proof.
  cbv zeta.
  apply (handler_file_not_found Mock.collaborators
           (Mock.answering Mock.testReply)
           [Mock.fileOf (js "f1") (js "u1") (Some (js "hello"))]
           (Mock.post (js "f9"))
           {| decodedEmail := js "alice@example.com" |} Mock.alice
           eq_refl eq_refl eq_refl
           (Req.mkBody (Some (js "f9"))) (js "f9"));
    try reflexivity; discriminate.
Defined.

(** ** Blank transcripts *)

Lemma trimStart_head (s r : jsstring) (c : N) :
  trimStart s = c :: r -> isWhiteSpace c = false.
Proof.
  induction s as [|x s IH]; simpl; [discriminate|].
  destruct (isWhiteSpace x) eqn:Hx; [exact IH|].
  intros [= <- _]. exact Hx.
Qed.

Lemma trimStart_nil (s : jsstring) :
  trimStart s = [] <-> forallb isWhiteSpace s = true.
Proof.
  induction s as [|x s IH]; simpl; [tauto|].
  destruct (isWhiteSpace x); simpl; [exact IH|].
  split; discriminate.
Qed.

(** The blank strings are the ones made of white space only. *)
Lemma isBlank_whitespace (s : jsstring) : isBlank s = forallb isWhiteSpace s.
Proof.
  unfold isBlank. destruct s as [|c s]; [reflexivity|]. cbn [isEmpty orb].
  destruct (forallb isWhiteSpace (c :: s)) eqn:Hall.
  - apply trimStart_nil in Hall. unfold trim. now rewrite Hall.
  - apply N.eqb_neq. rewrite jsLength_zero. unfold trim.
    destruct (trimStart (c :: s)) as [|x r] eqn:Hts.
    + apply trimStart_nil in Hts. congruence.
    + pose proof (trimStart_head _ _ _ Hts) as Hx.
      unfold trimEnd. cbn [rev]. rewrite trimStart_snoc by exact Hx.
      rewrite rev_app_distr. discriminate.
Qed.

(** ** The handler once the file is the caller's and has a transcript *)

Section Summarizable.
Context {DB : Type}.
Variables (c : Collaborators DB) (rt : Runtime) (db : DB) (req : Req.t).
Variables (decoded : Decoded) (user : User.t) (body : Req.body_t).
Variables (fileId : jsstring) (file : File.t) (transcript : jsstring).

Hypothesis Hpost : Req.method req = js "POST".
Hypothesis Htoken : verifyToken c (getTokenFromRequest c req) = Some decoded.
Hypothesis Huser : usersDB_findByEmail c (decodedEmail decoded) = Some user.
Hypothesis Hbody : Req.body req = Some body.
Hypothesis HfileId : Req.fileId body = Some fileId.
Hypothesis Hgiven : fileId <> [].
Hypothesis Hfile : filesDB_findById c db fileId = Some file.
Hypothesis Hown : File.userId file = User.id user.
Hypothesis Htext : File.transcript file = Some transcript.
Hypothesis Hsome : transcript <> [].

Local Ltac to_key :=
  unfold handler;
  rewrite Hpost, strictEq_refl; cbn [negb]; cbv zeta;
  rewrite Htoken, Huser, Hbody, HfileId,
    (proj2 (isEmpty_false fileId) Hgiven), Hfile, Hown, strictEq_refl;
  cbn [negb];
  rewrite Htext, (proj2 (isEmpty_false transcript) Hsome).

(** X5: without [GEMINI_API_KEY] (unset or empty) the handler answers 500
    and [AI service not configured. Please set up GEMINI_API_KEY.] and does
    not call the endpoint. *)
Theorem handler_service_not_configured :
  falsy (GEMINI_API_KEY rt) = true ->
  handler c rt db req
  = (Res.mk 500
       (ErrorJson (js "AI service not configured. Please set up GEMINI_API_KEY.")),
     db, []).
Proof.
  intros Hkey. to_key. now rewrite Hkey.
Qed.

(** X6: a transcript made of white space only passes the handler's own
    check but is refused by [generateSummary]: the answer is 500 with the
    details [No transcript text provided], and nothing is sent or written. *)
Theorem handler_whitespace_transcript :
  falsy (GEMINI_API_KEY rt) = false ->
  forallb isWhiteSpace transcript = true ->
  handler c rt db req
  = (Res.mk 500 (ErrorDetailsJson (js "Failed to regenerate summary")
                   (NewError (js "No transcript text provided"))),
     db, []).
Proof.
  intros Hkey Hws. to_key. rewrite Hkey.
  rewrite generateSummary_blank by (now rewrite isBlank_whitespace).
  reflexivity.
Qed.

(** X7: a non-success status of the endpoint reaches the client: the answer
    is 500 with [Failed to regenerate summary] and, as details, the error of
    the status (invalid key, forbidden, rate limit, or the generic one with
    the status and the body); the file store is not written. *)
Theorem handler_upstream_status (r : Response.t) :
  falsy (GEMINI_API_KEY rt) = false ->
  isBlank transcript = false ->
  fetch rt (endpoint rt) (summaryPromptOf (truncatedTextOf transcript)) = Resolved r ->
  Response.ok r = false ->
  handler c rt db req
  = (Res.mk 500 (ErrorDetailsJson (js "Failed to regenerate summary")
                   (statusError (Response.status r) (Response.text r))),
     db,
     [Fetch (endpoint rt) (summaryPromptOf (truncatedTextOf transcript))]).
Proof.
  intros Hkey Hb Hf Hok. to_key. rewrite Hkey.
  rewrite (surjective_pairing (generateSummary rt transcript)).
  rewrite (generateSummary_trace rt transcript Hb).
  now rewrite (generateSummary_not_ok rt transcript r Hb Hf Hok).
Qed.

(** X8: when the network fails ([fetch] rejects) or the body of a success
    response is not JSON, the handler answers 500 with the engine's error as
    details; the request was sent once and the file store is not written. *)
Theorem handler_transport_failure :
  falsy (GEMINI_API_KEY rt) = false ->
  isBlank transcript = false ->
  let sent := Fetch (endpoint rt) (summaryPromptOf (truncatedTextOf transcript)) in
  let reply := fetch rt (endpoint rt) (summaryPromptOf (truncatedTextOf transcript)) in
  (reply = Rejected ->
   handler c rt db req
   = (Res.mk 500 (ErrorDetailsJson (js "Failed to regenerate summary") TypeError),
      db, [sent]))
  /\ (forall r,
        reply = Resolved r -> Response.ok r = true -> Response.json r = None ->
        handler c rt db req
        = (Res.mk 500 (ErrorDetailsJson (js "Failed to regenerate summary") SyntaxError),
           db, [sent])).
Proof.
  intros Hkey Hb sent reply. subst sent reply. split.
  - intros Hf. to_key. rewrite Hkey. run. now rewrite Hb, Hf.
  - intros r Hf Hok Hjson. to_key. rewrite Hkey. run.
    now rewrite Hb, Hf, Hok, Hjson.
Qed.

(** X9: when [filesDB.update] returns nothing the handler answers 500 and
    [Failed to save updated summary]; by then the endpoint has been called
    and the write attempted. *)
Theorem handler_save_failed
    (newSummary : jsstring) (tr : list Event) (db' : DB) :
  falsy (GEMINI_API_KEY rt) = false ->
  generateSummary rt transcript = (tr, Returned newSummary) ->
  includes newSummary (js "failed") = false ->
  filesDB_update c db (File.id file)
    (Patch.mk newSummary (stringOr (File.topic file) (js "General")))
  = (db', None) ->
  handler c rt db req
  = (Res.mk 500 (ErrorJson (js "Failed to save updated summary")),
     db',
     tr ++ [Update (File.id file)
              (Patch.mk newSummary (stringOr (File.topic file) (js "General")))]).
Proof.
  intros Hkey Hgen Hclean Hsave.
  assert (Hne : isEmpty newSummary = false).
  { apply generateSummary_returned_inv in Hgen as Hinv.
    destruct Hinv as [Hcheck _]. now apply orb_false_iff in Hcheck. }
  to_key. rewrite Hkey, Hgen, Hne, Hclean. cbn [orb]. cbv zeta.
  now rewrite Hsave.
Qed.

(** X10: the success path for any reply: when the generated text has a
    [SUMMARY:] section whose trimmed text is at least 20 code units long and
    does not contain [failed], the handler writes that text as the summary,
    together with the file's own topic or, when the file has none, the topic
    [General], and answers 200 with the summary, provided the store returns
    the updated record. *)
Theorem handler_regenerates
    (g group1 : jsstring) (db' : DB) (saved : File.t) :
  let summary := trim group1 in
  let patch := Patch.mk summary (stringOr (File.topic file) (js "General")) in
  let sent := Fetch (endpoint rt) (summaryPromptOf (truncatedTextOf transcript)) in
  falsy (GEMINI_API_KEY rt) = false ->
  isBlank transcript = false ->
  extractedText (fetch rt (endpoint rt) (summaryPromptOf (truncatedTextOf transcript)))
  = Some (JString g) ->
  matchSummary g = Some group1 ->
  20 <= jsLength summary ->
  includes summary (js "failed") = false ->
  filesDB_update c db (File.id file) patch = (db', Some saved) ->
  handler c rt db req
  = (Res.mk 200 (SuccessJson (js "Summary regenerated successfully") summary),
     db', [sent; Update (File.id file) patch]).
Proof.
  intros summary patch sent Hkey Hb Hx Hm Hlen Hclean Hsave.
  assert (Hg : g <> []) by (intros ->; discriminate).
  assert (Hne : isEmpty summary = false).
  { destruct summary; [|reflexivity]. vm_compute in Hlen. congruence. }
  to_key. rewrite Hkey.
  rewrite (surjective_pairing (generateSummary rt transcript)).
  rewrite (generateSummary_trace rt transcript Hb).
  rewrite (generateSummary_parsed rt transcript g Hb Hx Hg), Hm. cbv zeta.
  fold summary. rewrite Hne. apply N.ltb_ge in Hlen. rewrite Hlen. cbn [orb].
  rewrite Hne, Hclean. cbn [orb]. cbv zeta. fold patch. now rewrite Hsave.
Qed.
End Summarizable.

Lemma handler_service_not_configured_witness :
  let db := [Mock.fileOf (js "f1") (js "u1") (Some (js "hello"))] in
  handler Mock.collaborators Stub.unconfigured db (Mock.post (js "f1"))
  = (Res.mk 500
       (ErrorJson (js "AI service not configured. Please set up GEMINI_API_KEY.")),
     db, []).
Proof.
  cbv zeta.
  apply (handler_service_not_configured Mock.collaborators Stub.unconfigured
           [Mock.fileOf (js "f1") (js "u1") (Some (js "hello"))]
           (Mock.post (js "f1"))
           {| decodedEmail := js "alice@example.com" |} Mock.alice
           (Req.mkBody (Some (js "f1"))) (js "f1")
           (Mock.fileOf (js "f1") (js "u1") (Some (js "hello"))) (js "hello"));
    try reflexivity; discriminate.
Defined.

Lemma handler_whitespace_transcript_witness :
  let db := [Mock.fileOf (js "f1") (js "u1") (Some (9 :: 10 :: js "  "))] in
  handler Mock.collaborators (Mock.answering Mock.testReply) db (Mock.post (js "f1"))
  = (Res.mk 500 (ErrorDetailsJson (js "Failed to regenerate summary")
                   (NewError (js "No transcript text provided"))),
     db, []).
Proof.
  cbv zeta.
  apply (handler_whitespace_transcript Mock.collaborators
           (Mock.answering Mock.testReply)
           [Mock.fileOf (js "f1") (js "u1") (Some (9 :: 10 :: js "  "))]
           (Mock.post (js "f1"))
           {| decodedEmail := js "alice@example.com" |} Mock.alice
           (Req.mkBody (Some (js "f1"))) (js "f1")
           (Mock.fileOf (js "f1") (js "u1") (Some (9 :: 10 :: js "  ")))
           (9 :: 10 :: js "  "));
    try reflexivity; discriminate.
Defined.

Lemma handler_upstream_status_witness :
  let db := [Mock.fileOf (js "f1") (js "u1") (Some (js "hello"))] in
  let rt := Mock.failing 403 (js "denied") in
  handler Mock.collaborators rt db (Mock.post (js "f1"))
  = (Res.mk 500
       (ErrorDetailsJson (js "Failed to regenerate summary")
          (NewError (js "API access forbidden - please check API key permissions"))),
     db, [Fetch (endpoint rt) (summaryPromptOf (js "hello"))]).
Proof.
  cbv zeta.
  apply (handler_upstream_status Mock.collaborators (Mock.failing 403 (js "denied"))
           [Mock.fileOf (js "f1") (js "u1") (Some (js "hello"))]
           (Mock.post (js "f1"))
           {| decodedEmail := js "alice@example.com" |} Mock.alice
           (Req.mkBody (Some (js "f1"))) (js "f1")
           (Mock.fileOf (js "f1") (js "u1") (Some (js "hello"))) (js "hello"))
    with (r := Response.mk false 403 (js "denied") None);
    try reflexivity; discriminate.
Defined.

Lemma handler_transport_failure_witness :
  let db := [Mock.fileOf (js "f1") (js "u1") (Some (js "hello"))] in
  handler Mock.collaborators Stub.rejecting db (Mock.post (js "f1"))
  = (Res.mk 500 (ErrorDetailsJson (js "Failed to regenerate summary") TypeError),
     db, [Fetch (endpoint Stub.rejecting) (summaryPromptOf (js "hello"))]).
Proof.
  cbv zeta.
  exact (proj1 (handler_transport_failure Mock.collaborators Stub.rejecting
                  [Mock.fileOf (js "f1") (js "u1") (Some (js "hello"))]
                  (Mock.post (js "f1"))
                  {| decodedEmail := js "alice@example.com" |} Mock.alice
                  (Req.mkBody (Some (js "f1"))) (js "f1")
                  (Mock.fileOf (js "f1") (js "u1") (Some (js "hello"))) (js "hello")
                  eq_refl eq_refl eq_refl eq_refl eq_refl ltac:(discriminate)
                  eq_refl eq_refl eq_refl ltac:(discriminate)
                  eq_refl eq_refl)
           eq_refl).
Defined.

Lemma handler_save_failed_witness :
  let db := [Mock.fileOf (js "f1") (js "u1") (Some (js "hello"))] in
  let rt := Mock.answering Mock.testReply in
  handler Stub.readOnly rt db (Mock.post (js "f1"))
  = (Res.mk 500 (ErrorJson (js "Failed to save updated summary")),
     db,
     [Fetch (endpoint rt) (summaryPromptOf (js "hello"));
      Update (js "f1") (Patch.mk Mock.testSummary (js "General"))]).
Proof.
  cbv zeta.
  apply (handler_save_failed Stub.readOnly (Mock.answering Mock.testReply)
           [Mock.fileOf (js "f1") (js "u1") (Some (js "hello"))]
           (Mock.post (js "f1"))
           {| decodedEmail := js "alice@example.com" |} Mock.alice
           (Req.mkBody (Some (js "f1"))) (js "f1")
           (Mock.fileOf (js "f1") (js "u1") (Some (js "hello"))) (js "hello"))
    with (newSummary := Mock.testSummary)
         (tr := [Fetch (endpoint (Mock.answering Mock.testReply))
                   (summaryPromptOf (js "hello"))]);
    try reflexivity; discriminate.
Defined.

(** A file that already has a topic keeps it. *)
Lemma handler_regenerates_witness :
  let file := File.mk (js "f1") (js "u1") (Some (js "hello"))
                (Some (js "old summary")) (Some (js "Budget")) in
  let reply :=
    js "Here you go. SUMMARY: The team agreed on the budget for next year."
    ++ LF ++ js "TOPICS: budget" in
  let summary := js "The team agreed on the budget for next year." in
  let rt := Mock.answering reply in
  handler Mock.collaborators rt [file] (Mock.post (js "f1"))
  = (Res.mk 200 (SuccessJson (js "Summary regenerated successfully") summary),
     [File.mk (js "f1") (js "u1") (Some (js "hello"))
              (Some summary) (Some (js "Budget"))],
     [Fetch (endpoint rt) (summaryPromptOf (js "hello"));
      Update (js "f1") (Patch.mk summary (js "Budget"))]).
Proof.
  cbv zeta.
  apply (handler_regenerates Mock.collaborators
           (Mock.answering
              (js "Here you go. SUMMARY: The team agreed on the budget for next year."
               ++ LF ++ js "TOPICS: budget"))
           [File.mk (js "f1") (js "u1") (Some (js "hello"))
                    (Some (js "old summary")) (Some (js "Budget"))]
           (Mock.post (js "f1"))
           {| decodedEmail := js "alice@example.com" |} Mock.alice
           (Req.mkBody (Some (js "f1"))) (js "f1")
           (File.mk (js "f1") (js "u1") (Some (js "hello"))
                    (Some (js "old summary")) (Some (js "Budget")))
           (js "hello"))
    with (g := js "Here you go. SUMMARY: The team agreed on the budget for next year."
               ++ LF ++ js "TOPICS: budget")
         (group1 := js "The team agreed on the budget for next year." ++ LF)
         (saved := File.mk (js "f1") (js "u1") (Some (js "hello"))
                     (Some (js "The team agreed on the budget for next year."))
                     (Some (js "Budget")));
    try reflexivity; discriminate.
Defined.

(** ** What the handler does on any request *)

(** The events of one run of [generateSummary]: none, or the one request. *)
Lemma generateSummary_events
    (rt : Runtime) (text : jsstring) (tr : list Event) (o : Outcome jsstring) :
  generateSummary rt text = (tr, o) ->
  (tr = [] /\ o = Thrown (NewError (js "No transcript text provided")))
  \/ tr = [Fetch (endpoint rt) (summaryPromptOf (truncatedTextOf text))].
Proof.
  intros H. destruct (isBlank text) eqn:Hb.
  - rewrite generateSummary_blank in H by exact Hb. injection H as <- <-. now left.
  - pose proof (generateSummary_trace rt text Hb) as Htr.
    rewrite H in Htr. now right.
Qed.

Ltac gate := left; do 2 eexists; split; [reflexivity | simpl; tauto].

(** Every run of the handler is one row of this table: it stops at a gate
    without any effect, or it reaches the generator for the caller's own
    file and then answers by the generator's outcome and the store's. *)
Lemma handler_table {DB : Type} (c : Collaborators DB) (rt : Runtime) (db : DB)
    (req : Req.t) :
  (exists code message,
     handler c rt db req = (Res.mk code (ErrorJson message), db, [])
     /\ In code [400; 401; 403; 404; 405; 500])
  \/ (exists user file transcript key tr o,
        resolves c db req user file
        /\ File.userId file = User.id user
        /\ File.transcript file = Some transcript /\ transcript <> []
        /\ GEMINI_API_KEY rt = Some key /\ key <> []
        /\ generateSummary rt transcript = (tr, o)
        /\ match o with
           | Thrown err =>
               handler c rt db req
               = (Res.mk 500 (ErrorDetailsJson (js "Failed to regenerate summary") err),
                  db, tr)
           | Returned newSummary =>
               if includes newSummary (js "failed") then
                 handler c rt db req
                 = (Res.mk 500
                      (ErrorJson (js "AI summary generation failed. Please try again.")),
                    db, tr)
               else
                 let patch :=
                   Patch.mk newSummary (stringOr (File.topic file) (js "General")) in
                 handler c rt db req
                 = (match snd (filesDB_update c db (File.id file) patch) with
                    | Some _ =>
                        Res.mk 200
                          (SuccessJson (js "Summary regenerated successfully") newSummary)
                    | None => Res.mk 500 (ErrorJson (js "Failed to save updated summary"))
                    end,
                    fst (filesDB_update c db (File.id file) patch),
                    tr ++ [Update (File.id file) patch])
           end).
Proof.
  unfold handler, respond.
  destruct (strictEq (Req.method req) (js "POST")) eqn:Hm; cbn [negb]; [|gate].
  cbv zeta.
  destruct (verifyToken c (getTokenFromRequest c req)) as [decoded|] eqn:Hv; [|gate].
  destruct (usersDB_findByEmail c (decodedEmail decoded)) as [user|] eqn:Hu; [|gate].
  destruct (Req.body req) as [body|] eqn:Hb; [|gate].
  destruct (Req.fileId body) as [fileId|] eqn:Hf; [|gate].
  destruct (isEmpty fileId) eqn:He; [gate|].
  destruct (filesDB_findById c db fileId) as [file|] eqn:Hfile; [|gate].
  destruct (strictEq (File.userId file) (User.id user)) eqn:Hown; cbn [negb]; [|gate].
  destruct (File.transcript file) as [transcript|] eqn:Ht; [|gate].
  destruct (isEmpty transcript) eqn:Hte; [gate|].
  destruct (GEMINI_API_KEY rt) as [key|] eqn:Hk; cbn [falsy]; [|gate].
  destruct (isEmpty key) eqn:Hke; [gate|].
  right.
  destruct (generateSummary rt transcript) as [tr o] eqn:Hgen.
  exists user, file, transcript, key, tr, o.
  split.
  { split; [now apply strictEq_eq|]. split; [now exists decoded|].
    exists body, fileId. repeat split; try assumption. now apply isEmpty_false. }
  split; [now apply strictEq_eq|].
  split; [first [assumption | reflexivity]|]. split; [now apply isEmpty_false|].
  split; [first [assumption | reflexivity]|]. split; [now apply isEmpty_false|].
  split; [first [assumption | reflexivity]|].
  destruct o as [newSummary|err]; [|reflexivity].
  assert (Hne : isEmpty newSummary = false).
  { apply generateSummary_returned_inv in Hgen as [Hcheck _].
    now apply orb_false_iff in Hcheck. }
  rewrite Hne. cbn [orb].
  destruct (includes newSummary (js "failed")); [reflexivity|].
  cbv zeta.
  destruct (filesDB_update c db (File.id file) _) as [db' [saved|]]; reflexivity.
Qed.

(** X11: whatever the request, the collaborators and the endpoint do, the
    status of the answer is one of 200, 400, 401, 403, 404, 405 and 500. *)
Theorem handler_status_codes
    {DB : Type} (c : Collaborators DB) (rt : Runtime) (db : DB) (req : Req.t) :
  In (Res.status (fst (fst (handler c rt db req)))) [200; 400; 401; 403; 404; 405; 500].
Proof.
  destruct (handler_table c rt db req)
    as [(code & message & Heq & Hcode)
       | (user & file & transcript & key & tr & o & _ & _ & _ & _ & _ & _ & _ & H)].
  - rewrite Heq. simpl in *. tauto.
  - destruct o as [newSummary|err].
    + destruct (includes newSummary (js "failed")); [rewrite H; simpl; tauto|].
      cbv zeta in H. rewrite H.
      destruct (snd (filesDB_update c db (File.id file) _)); simpl; tauto.
    + rewrite H. simpl. tauto.
Qed.

(** X12: on every request the handler calls the endpoint at most once and
    the file store's [update] at most once, and a write comes only after the
    call; without a write the file store is unchanged, and with one it is
    the store that this [update] left. *)
Theorem handler_effects
    {DB : Type} (c : Collaborators DB) (rt : Runtime) (db : DB) (req : Req.t) :
  let trace := snd (handler c rt db req) in
  let store := snd (fst (handler c rt db req)) in
  (trace = [] /\ store = db)
  \/ (exists url prompt, trace = [Fetch url prompt] /\ store = db)
  \/ (exists url prompt id patch,
        trace = [Fetch url prompt; Update id patch]
        /\ store = fst (filesDB_update c db id patch)).
Proof.
  cbv zeta.
  destruct (handler_table c rt db req)
    as [(code & message & Heq & _)
       | (user & file & transcript & key & tr & o & _ & _ & _ & _ & _ & _ & Hgen & H)].
  - rewrite Heq. now left.
  - pose proof (generateSummary_events rt transcript tr o Hgen) as Hev.
    destruct o as [newSummary|err].
    + destruct Hev as [[_ Habs] | ->]; [discriminate|].
      destruct (includes newSummary (js "failed")).
      * rewrite H. right; left. now do 2 eexists.
      * cbv zeta in H. rewrite H. right; right. now do 4 eexists.
    + rewrite H. destruct Hev as [[-> _] | ->]; [now left|].
      right; left. now do 2 eexists.
Qed.

(** X13: nothing happens on behalf of a request that is not the owner's:
    if the handler calls the endpoint or writes to the file store, then the
    request is a POST with a verified token of a known user, its [fileId]
    names a file of that user, and a write goes to that file's id. *)
Theorem handler_effects_authorized
    {DB : Type} (c : Collaborators DB) (rt : Runtime) (db : DB) (req : Req.t)
    (e : Event) :
  In e (snd (handler c rt db req)) ->
  exists user file,
    resolves c db req user file
    /\ File.userId file = User.id user
    /\ forall id patch, e = Update id patch -> id = File.id file.
Proof.
  destruct (handler_table c rt db req)
    as [(code & message & Heq & _)
       | (user & file & transcript & key & tr & o & Hres & Hown & _ & _ & _ & _ & Hgen & H)].
  - rewrite Heq. intros [].
  - intros Hin. exists user, file. split; [exact Hres|]. split; [exact Hown|].
    intros id patch ->.
    assert (Hno : ~ In (Update id patch) tr).
    { pose proof (generateSummary_no_update rt transcript id patch) as Hno.
      now rewrite Hgen in Hno. }
    destruct o as [newSummary|err].
    + destruct (includes newSummary (js "failed")).
      * rewrite H in Hin. contradiction.
      * cbv zeta in H. rewrite H in Hin. cbn [snd] in Hin.
        apply in_app_or in Hin as [Hin|[Hin|[]]]; [contradiction|].
        now injection Hin.
    + rewrite H in Hin. contradiction.
Qed.

(** X14: what leaves the process: whenever the handler calls the endpoint,
    the API key is configured and is the key in the URL, and the prompt is
    built from the transcript of the caller's own file and from nothing
    else of the request or the store. *)
Theorem handler_sends_own_transcript
    {DB : Type} (c : Collaborators DB) (rt : Runtime) (db : DB) (req : Req.t)
    (url prompt : jsstring) :
  In (Fetch url prompt) (snd (handler c rt db req)) ->
  exists user file transcript key,
    resolves c db req user file
    /\ File.userId file = User.id user
    /\ File.transcript file = Some transcript
    /\ GEMINI_API_KEY rt = Some key /\ key <> []
    /\ url = js "https://generativelanguage.googleapis.com/v1/models/gemini-1.5-flash:generateContent?key=" ++ key
    /\ prompt = promptHead ++ truncatedTextOf transcript ++ promptTail.
Proof.
  destruct (handler_table c rt db req)
    as [(code & message & Heq & _)
       | (user & file & transcript & key & tr & o & Hres & Hown & Ht & _ & Hk & Hke & Hgen & H)].
  - rewrite Heq. intros [].
  - intros Hin. exists user, file, transcript, key.
    repeat (split; [assumption|]).
    assert (Htr : In (Fetch url prompt) tr).
    { destruct o as [newSummary|err].
      - destruct (includes newSummary (js "failed")).
        + now rewrite H in Hin.
        + cbv zeta in H. rewrite H in Hin. cbn [snd] in Hin.
          apply in_app_or in Hin as [Hin|[Hin|[]]]; [exact Hin | discriminate].
      - now rewrite H in Hin. }
    destruct (generateSummary_events rt transcript tr o Hgen) as [[-> _] | ->];
      [destruct Htr|].
    destruct Htr as [Heq|[]]. injection Heq as <- <-.
    unfold endpoint. rewrite Hk. now split.
Qed.


(** X16: an answer with a status below 500 other than 200 (400, 401, 403,
    404, 405) comes without any effect: no call of the endpoint, no write,
    the file store as it was. *)
Theorem handler_client_errors_pure
    {DB : Type} (c : Collaborators DB) (rt : Runtime) (db : DB) (req : Req.t) :
  Res.status (fst (fst (handler c rt db req))) < 500 ->
  Res.status (fst (fst (handler c rt db req))) <> 200 ->
  snd (handler c rt db req) = [] /\ snd (fst (handler c rt db req)) = db.
Proof.
  destruct (handler_table c rt db req)
    as [(code & message & Heq & _)
       | (user & file & transcript & key & tr & o & _ & _ & _ & _ & _ & _ & Hgen & H)].
  - rewrite Heq. now split.
  - destruct o as [newSummary|err].
    + destruct (includes newSummary (js "failed")); [rewrite H; cbn; lia|].
      cbv zeta in H. rewrite H. cbn [fst snd].
      destruct (snd (filesDB_update c db (File.id file) _)); cbn; [congruence | lia].
    + rewrite H. cbn. lia.
Qed.

Lemma handler_effects_authorized_witness :
  let db := [Mock.fileOf (js "f1") (js "u1") (Some (js "hello"))] in
  exists user file,
    resolves Mock.collaborators db (Mock.post (js "f1")) user file
    /\ File.userId file = User.id user
    /\ forall id patch,
         Update (js "f1") (Patch.mk Mock.testSummary (js "General")) = Update id patch ->
         id = File.id file.
Proof.
  cbv zeta.
  apply (handler_effects_authorized Mock.collaborators
           (Mock.answering Mock.testReply)
           [Mock.fileOf (js "f1") (js "u1") (Some (js "hello"))]
           (Mock.post (js "f1"))
           (Update (js "f1") (Patch.mk Mock.testSummary (js "General")))).
  right. left. reflexivity.
Defined.

Lemma handler_sends_own_transcript_witness :
  let db := [Mock.fileOf (js "f1") (js "u1") (Some (js "hello"));
             Mock.fileOf (js "f2") (js "u2") (Some (js "secret"))] in
  let rt := Mock.answering Mock.testReply in
  exists user file transcript key,
    resolves Mock.collaborators db (Mock.post (js "f1")) user file
    /\ File.userId file = User.id user
    /\ File.transcript file = Some transcript
    /\ GEMINI_API_KEY rt = Some key /\ key <> []
    /\ endpoint rt
       = js "https://generativelanguage.googleapis.com/v1/models/gemini-1.5-flash:generateContent?key=" ++ key
    /\ summaryPromptOf (js "hello") = promptHead ++ truncatedTextOf transcript ++ promptTail.
Proof.
  cbv zeta.
  apply (handler_sends_own_transcript Mock.collaborators
           (Mock.answering Mock.testReply)
           [Mock.fileOf (js "f1") (js "u1") (Some (js "hello"));
            Mock.fileOf (js "f2") (js "u2") (Some (js "secret"))]
           (Mock.post (js "f1"))).
  left. reflexivity.
Defined.


Lemma handler_client_errors_pure_witness :
  let db := [Mock.fileOf (js "f2") (js "u2") (Some (js "hello"))] in
  let out := handler Mock.collaborators (Mock.answering Mock.testReply) db
               (Mock.post (js "f2")) in
  snd out = [] /\ snd (fst out) = db.
Proof.
  cbv zeta.
  apply (handler_client_errors_pure Mock.collaborators
           (Mock.answering Mock.testReply)
           [Mock.fileOf (js "f2") (js "u2") (Some (js "hello"))]
           (Mock.post (js "f2"))).
  - reflexivity.
  - discriminate.
Defined.

(** ** More on [generateSummary] *)

(** X17: [generateSummary] calls the endpoint exactly when the transcript
    has a code unit that is not white space: a transcript of white space
    only (or an empty one) is refused with [No transcript text provided]
    before anything is sent, any other is sent once. *)
Theorem generateSummary_sends_unless_whitespace (rt : Runtime) (text : jsstring) :
  if forallb isWhiteSpace text
  then generateSummary rt text
       = ([], Thrown (NewError (js "No transcript text provided")))
  else fst (generateSummary rt text)
       = [Fetch (endpoint rt) (summaryPromptOf (truncatedTextOf text))].
Proof.
  rewrite <- isBlank_whitespace.
  destruct (isBlank text) eqn:Hb.
  - now apply generateSummary_blank.
  - now apply generateSummary_trace.
Qed.

Lemma truncatedTextOf_length (text : jsstring) :
  jsLength (truncatedTextOf text) <= maxTranscriptLength.
Proof.
  unfold truncatedTextOf, substring0, jsLength.
  destruct (maxTranscriptLength <? N.of_nat (length text)) eqn:H.
  - rewrite length_firstn. lia.
  - apply N.ltb_ge in H. exact H.
Qed.

(** X18: however long the transcript is, a prompt that [generateSummary]
    sends is never longer than the fixed text of the template plus 32000
    code units. *)
Theorem generateSummary_prompt_bounded
    (rt : Runtime) (text url prompt : jsstring) :
  In (Fetch url prompt) (fst (generateSummary rt text)) ->
  jsLength prompt <= jsLength promptHead + 32000 + jsLength promptTail.
Proof.
  destruct (isBlank text) eqn:Hb.
  - rewrite generateSummary_blank by exact Hb. intros [].
  - rewrite generateSummary_trace by exact Hb. intros [Heq|[]].
    injection Heq as _ <-.
    pose proof (truncatedTextOf_length text) as Hlen.
    unfold summaryPromptOf, jsLength, maxTranscriptLength in *.
    rewrite !length_app. lia.
Qed.

Lemma generateSummary_prompt_bounded_witness :
  let rt := Mock.answering Mock.testReply in
  jsLength (summaryPromptOf (js "hello"))
  <= jsLength promptHead + 32000 + jsLength promptTail.
Proof.
  cbv zeta.
  apply (generateSummary_prompt_bounded (Mock.answering Mock.testReply) (js "hello")
           (endpoint (Mock.answering Mock.testReply))).
  left. reflexivity.
Defined.

(** X19: a success reply from which no text can be taken (no candidates, no
    parts, or a text that is empty, [null], [false] or zero) makes
    [generateSummary] throw [Empty response from AI service]. *)
Theorem generateSummary_empty_response
    (rt : Runtime) (text url prompt : jsstring) :
  fst (generateSummary rt text) = [Fetch url prompt] ->
  extractedText (fetch rt url prompt) = Some (JString []) ->
  snd (generateSummary rt text)
  = Thrown (NewError (js "Empty response from AI service")).
Proof.
  intros Hsent Hx.
  apply generateSummary_sent in Hsent as (Hb & -> & ->).
  apply extractedText_inv in Hx as (r & data & Hf & Hok & Hjson & Hgen).
  run. now rewrite Hb, Hf, Hok, Hjson, Hgen.
Qed.

Lemma generateSummary_empty_response_witness :
  let rt := Stub.resolving (Response.mk true 200 (js "{}") (Some (JObject []))) in
  snd (generateSummary rt (js "hello"))
  = Thrown (NewError (js "Empty response from AI service")).
Proof.
  cbv zeta.
  exact (generateSummary_empty_response
           (Stub.resolving (Response.mk true 200 (js "{}") (Some (JObject []))))
           (js "hello")
           (endpoint (Stub.resolving (Response.mk true 200 (js "{}") (Some (JObject [])))))
           (summaryPromptOf (js "hello"))
           eq_refl eq_refl).
Defined.

(** X20: the errors of [generateSummary] are these and no others: the
    refusal of a blank transcript, [fetch]'s own rejection and the engine's
    parse and type errors, the error of a non-success status, the empty
    response, and the summary that is too short or invalid. *)
Theorem generateSummary_errors (rt : Runtime) (text : jsstring) :
  match snd (generateSummary rt text) with
  | Returned _ => True
  | Thrown e =>
      e = NewError (js "No transcript text provided")
      \/ e = TypeError
      \/ e = SyntaxError
      \/ (exists status errorText, e = statusError status errorText)
      \/ e = NewError (js "Empty response from AI service")
      \/ e = NewError (js "Generated summary is too short or invalid")
  end.
Proof.
  run. destruct (isBlank text); [simpl; tauto|].
  destruct (fetch rt _ _) as [|r]; [simpl; tauto|].
  destruct (Response.ok r); cbn [negb].
  2:{ simpl. right; right; right; left. now do 2 eexists. }
  destruct (Response.json r) as [data|]; [|simpl; tauto].
  destruct (generatedTextOf data) as [tr0 [g|e]] eqn:Hg.
  2:{ destruct data; simpl in Hg; try discriminate. injection Hg as _ <-.
      simpl. tauto. }
  destruct (truthy g); cbn [negb]; [|simpl; tauto].
  destruct g; try (simpl; tauto).
  cbv zeta.
  match goal with |- context [if ?b then _ else _] => destruct b end; simpl; tauto.
Qed.

(** ** More on the regular expression *)

Lemma startsWith_nil (s : jsstring) : startsWith s [] = true.
Proof. destruct s; reflexivity. Qed.

Lemma startsWith_app_l (s p rest : jsstring) :
  startsWith s p = true -> startsWith (s ++ rest) p = true.
Proof.
  revert s; induction p as [|x p IH]; intros s; [intros _; apply startsWith_nil|].
  destruct s as [|c s]; simpl; [discriminate|].
  intros H. apply andb_true_iff in H as [-> H]. now apply IH.
Qed.

Lemma startsWith_split (s p : jsstring) :
  startsWith s p = true -> s = p ++ skipn (length p) s.
Proof.
  revert s; induction p as [|x p IH]; intros s; [reflexivity|].
  destruct s as [|c s]; simpl; [discriminate|].
  intros H. apply andb_true_iff in H as [Hc H].
  apply N.eqb_eq in Hc. subst x. f_equal. now apply IH.
Qed.

Lemma includes_cons (c : N) (s p : jsstring) :
  includes (c :: s) p = startsWith (c :: s) p || includes s p.
Proof. reflexivity. Qed.

(** What [.+?] takes: a non-empty prefix, followed by the end or by
    [TOPICS:], with no [TOPICS:] inside it after its first code unit. *)
Lemma dotPlusLazy_sound (s m : jsstring) :
  dotPlusLazy s = Some m ->
  exists c m' rest,
    m = c :: m' /\ s = m ++ rest /\ lookahead rest = true
    /\ includes m' (js "TOPICS:") = false.
Proof.
  revert m; induction s as [|c s IH]; intros m; [discriminate|].
  cbn [dotPlusLazy]. destruct (lookahead s) eqn:Hl.
  - intros [= <-]. now exists c, [], s.
  - destruct (dotPlusLazy s) as [m0|] eqn:Hd; [|discriminate].
    intros [= <-].
    destruct (IH m0 eq_refl) as (c0 & m0' & rest & -> & Hs & Hrest & Hno).
    exists c, (c0 :: m0'), rest. repeat split; try assumption.
    + simpl. now rewrite Hs.
    + rewrite includes_cons, Hno, orb_false_r.
      destruct (startsWith (c0 :: m0') (js "TOPICS:")) eqn:Hsw; [|reflexivity].
      apply (startsWith_app_l _ _ rest) in Hsw. rewrite <- Hs in Hsw.
      unfold lookahead in Hl. now rewrite Hsw in Hl.
Qed.

Lemma spacesGreedy_sound (s m : jsstring) :
  spacesGreedy s = Some m ->
  exists ws, forallb isWhiteSpace ws = true /\ dotPlusLazy (skipn (length ws) s) = Some m
             /\ firstn (length ws) s = ws.
Proof.
  revert m; induction s as [|c s IH]; intros m.
  - simpl. discriminate.
  - cbn [spacesGreedy]. destruct (isWhiteSpace c) eqn:Hc.
    + destruct (spacesGreedy s) as [m0|] eqn:Hg.
      * intros [= <-]. destruct (IH m0 eq_refl) as (ws & Hws & Hd & Hf).
        exists (c :: ws). simpl. rewrite Hc, Hws, Hf. auto.
      * intros H. now exists [].
    + intros H. now exists [].
Qed.

Lemma dotPlusLazy_some (c : N) (s : jsstring) : dotPlusLazy (c :: s) <> None.
Proof.
  revert c; induction s as [|x s IH]; intros c.
  - simpl. discriminate.
  - change (dotPlusLazy (c :: x :: s))
      with (if lookahead (x :: s) then Some [c]
            else option_map (cons c) (dotPlusLazy (x :: s))).
    destruct (lookahead (x :: s)); [discriminate|].
    specialize (IH x).
    destruct (dotPlusLazy (x :: s)); simpl; [discriminate | congruence].
Qed.

Lemma spacesGreedy_some (c : N) (s : jsstring) : spacesGreedy (c :: s) <> None.
Proof.
  pose proof (dotPlusLazy_some c s) as H.
  change (spacesGreedy (c :: s))
    with (if isWhiteSpace c
          then match spacesGreedy s with
               | Some m => Some m
               | None => dotPlusLazy (c :: s)
               end
          else dotPlusLazy (c :: s)).
  destruct (isWhiteSpace c); [|exact H].
  destruct (spacesGreedy s); [discriminate | exact H].
Qed.

(** The decomposition of a match: the text before the marker, the marker,
    white space, group 1, and what follows. *)
Lemma matchSummary_sound (s m : jsstring) :
  matchSummary s = Some m ->
  exists pre ws c m' rest,
    s = pre ++ js "SUMMARY:" ++ ws ++ m ++ rest
    /\ m = c :: m'
    /\ forallb isWhiteSpace ws = true
    /\ lookahead rest = true
    /\ includes m' (js "TOPICS:") = false
    /\ forall k, (k < length pre)%nat -> startsWith (skipn k s) (js "SUMMARY:") = false.
Proof.
  induction s as [|x s IH]; [discriminate|].
  cbn [matchSummary]. destruct (matchHere (x :: s)) as [m0|] eqn:Hh.
  - intros [= ->]. unfold matchHere in Hh.
    destruct (startsWith (x :: s) (js "SUMMARY:")) eqn:Hsw; [|discriminate].
    apply spacesGreedy_sound in Hh as (ws & Hws & Hd & Hf).
    apply dotPlusLazy_sound in Hd as (c & m' & rest & -> & Hs & Hrest & Hno).
    exists [], ws, c, m', rest. repeat split; try assumption.
    + rewrite (startsWith_split _ _ Hsw) at 1. cbn [app]. do 8 f_equal.
      rewrite <- (firstn_skipn (length ws) (skipn _ (x :: s))).
      now rewrite Hf, Hs.
    + simpl. intros k Hk. lia.
  - intros Hm.
    destruct (IH Hm) as (pre & ws & c & m' & rest & Hs & -> & Hws & Hrest & Hno & Hleft).
    exists (x :: pre), ws, c, m', rest. repeat split; try assumption.
    + simpl. now rewrite Hs at 1.
    + intros [|k] Hk.
      * cbn [skipn]. unfold matchHere in Hh.
        destruct (startsWith (x :: s) (js "SUMMARY:")) eqn:Hsw; [|reflexivity].
        exfalso. apply startsWith_split in Hsw as Hsplit.
        destruct (skipn (length (js "SUMMARY:")) (x :: s)) as [|y r] eqn:Hr.
        -- rewrite app_nil_r in Hsplit. injection Hsplit as _ ->.
           vm_compute in Hm. discriminate.
        -- now apply spacesGreedy_some in Hh.
      * cbn [skipn]. apply Hleft. simpl in Hk. lia.
Qed.

(** X21: what a match is.  When the pattern matches, the text is: something
    without an earlier [SUMMARY:], the marker, white space, group 1, and a
    rest that is empty or starts with [TOPICS:]; group 1 is not empty. *)
Theorem matchSummary_decomposes (s group1 : jsstring) :
  matchSummary s = Some group1 ->
  exists before spaces rest,
    s = before ++ js "SUMMARY:" ++ spaces ++ group1 ++ rest
    /\ forallb isWhiteSpace spaces = true
    /\ 0 < jsLength group1
    /\ (rest = [] \/ startsWith rest (js "TOPICS:") = true)
    /\ forall k, (k < length before)%nat ->
         startsWith (skipn k s) (js "SUMMARY:") = false.
Proof.
  intros Hm.
  destruct (matchSummary_sound s group1 Hm)
    as (pre & ws & c & m' & rest & Hs & -> & Hws & Hrest & _ & Hleft).
  exists pre, ws, rest. repeat split; try assumption.
  unfold lookahead in Hrest. apply orb_true_iff in Hrest as [H|H]; [now right|].
  left. now destruct rest.
Qed.

Lemma matchSummary_decomposes_witness :
  exists before spaces rest,
    js "Sure. SUMMARY:  A short one. TOPICS: a"
    = before ++ js "SUMMARY:" ++ spaces ++ js "A short one. " ++ rest
    /\ forallb isWhiteSpace spaces = true
    /\ 0 < jsLength (js "A short one. ")
    /\ (rest = [] \/ startsWith rest (js "TOPICS:") = true)
    /\ forall k, (k < length before)%nat ->
         startsWith (skipn k (js "Sure. SUMMARY:  A short one. TOPICS: a"))
           (js "SUMMARY:") = false.
Proof.
  exact (matchSummary_decomposes (js "Sure. SUMMARY:  A short one. TOPICS: a")
           (js "A short one. ") eq_refl).
Defined.

(** X22: the section stops at the first [TOPICS:] it can stop at: behind
    its first code unit, group 1 does not contain [TOPICS:]. *)
Theorem matchSummary_stops_at_topics (s group1 : jsstring) :
  matchSummary s = Some group1 ->
  includes (tl group1) (js "TOPICS:") = false.
Proof.
  intros Hm.
  destruct (matchSummary_sound s group1 Hm)
    as (pre & ws & c & m' & rest & _ & -> & _ & _ & Hno & _).
  exact Hno.
Qed.

Lemma matchSummary_stops_at_topics_witness :
  includes (tl (js "first part ")) (js "TOPICS:") = false.
Proof.
  exact (matchSummary_stops_at_topics
           (js "SUMMARY: first part TOPICS: a TOPICS: b") (js "first part ") eq_refl).
Defined.

(** X23: the pattern matches every text in which the marker is followed by
    at least one code unit, whatever that is. *)
Theorem matchSummary_complete (before : jsstring) (c : N) (rest : jsstring) :
  exists group1, matchSummary (before ++ js "SUMMARY:" ++ c :: rest) = Some group1.
Proof.
  induction before as [|x before IH].
  - assert (Hh : matchHere (js "SUMMARY:" ++ c :: rest) = spacesGreedy (c :: rest)).
    { unfold matchHere. now rewrite startsWith_app. }
    pose proof (spacesGreedy_some c rest) as Hsome.
    destruct (spacesGreedy (c :: rest)) as [m|] eqn:Hg; [|congruence].
    exists m. change ([] ++ js "SUMMARY:" ++ c :: rest)
      with (83 :: skipn 1 (js "SUMMARY:") ++ c :: rest).
    cbn [matchSummary].
    change (83 :: skipn 1 (js "SUMMARY:") ++ c :: rest)
      with (js "SUMMARY:" ++ c :: rest).
    now rewrite Hh.
  - destruct IH as [m IH]. cbn [app matchSummary].
    destruct (matchHere (x :: before ++ js "SUMMARY:" ++ c :: rest)) as [m0|].
    + now exists m0.
    + now exists m.
Qed.

(** ** Trimming keeps a piece of the string *)

Lemma trimStart_split (s : jsstring) : exists l, s = l ++ trimStart s.
Proof.
  induction s as [|c s [l IH]]; [now exists []|].
  simpl. destruct (isWhiteSpace c).
  - exists (c :: l). simpl. now rewrite <- IH.
  - now exists [].
Qed.

Lemma trimEnd_split (s : jsstring) : exists r, s = trimEnd s ++ r.
Proof.
  unfold trimEnd. destruct (trimStart_split (rev s)) as [l Hl].
  exists (rev l). rewrite <- rev_app_distr, <- Hl. now rewrite rev_involutive.
Qed.

Lemma trim_split (s : jsstring) : exists l r, s = l ++ trim s ++ r.
Proof.
  unfold trim. destruct (trimStart_split s) as [l Hl].
  destruct (trimEnd_split (trimStart s)) as [r Hr].
  exists l, r. now rewrite <- Hr.
Qed.

(** X24: the success path of [generateSummary] for any reply: when the
    generated text has a [SUMMARY:] section whose trimmed text is at least 20
    code units long, that trimmed text is what is returned, and it is a
    piece of the generated text as the model wrote it. *)
Theorem generateSummary_returns_section
    (rt : Runtime) (text url prompt g group1 : jsstring) :
  fst (generateSummary rt text) = [Fetch url prompt] ->
  extractedText (fetch rt url prompt) = Some (JString g) ->
  matchSummary g = Some group1 ->
  20 <= jsLength (trim group1) ->
  snd (generateSummary rt text) = Returned (trim group1)
  /\ exists before after, g = before ++ trim group1 ++ after.
Proof.
  intros Hsent Hx Hm Hlen.
  apply generateSummary_sent in Hsent as (Hb & -> & ->).
  assert (Hg : g <> []) by (intros ->; discriminate).
  split.
  - rewrite (generateSummary_parsed rt text g Hb Hx Hg), Hm. cbv zeta.
    apply N.ltb_ge in Hlen as Hlt. rewrite Hlt.
    destruct (trim group1); [vm_compute in Hlen; congruence | reflexivity].
  - destruct (matchSummary_sound g group1 Hm)
      as (pre & ws & c & m' & rest & Hs & _ & _ & _ & _ & _).
    destruct (trim_split group1) as (l & r & Hsplit).
    exists (pre ++ js "SUMMARY:" ++ ws ++ l), (r ++ rest).
    rewrite Hs. rewrite Hsplit at 1. now rewrite <- !app_assoc.
Qed.

Lemma generateSummary_returns_section_witness :
  let g := js "SUMMARY:  The committee approved the new schedule.  TOPICS: x" in
  let summary := js "The committee approved the new schedule." in
  snd (generateSummary (Mock.answering g) (js "hello")) = Returned summary
  /\ exists before after, g = before ++ summary ++ after.
Proof.
  cbv zeta.
  exact (generateSummary_returns_section
           (Mock.answering (js "SUMMARY:  The committee approved the new schedule.  TOPICS: x"))
           (js "hello")
           (endpoint (Mock.answering (js "SUMMARY:  The committee approved the new schedule.  TOPICS: x")))
           (summaryPromptOf (js "hello"))
           (js "SUMMARY:  The committee approved the new schedule.  TOPICS: x")
           (js "The committee approved the new schedule.  ")
           eq_refl eq_refl eq_refl ltac:(vm_compute; discriminate)).
Defined.

(** ** More on [generateSummaryRetry] *)

(** X25: the retry generator validates and truncates nothing: for every
    transcript, blank or longer than 32000 code units, it calls the endpoint
    exactly once with the whole transcript in the prompt. *)
Theorem generateSummaryRetry_sends_everything (rt : Runtime) (text : jsstring) :
  fst (generateSummaryRetry rt text)
  = [Fetch (endpoint rt) (promptHead ++ text ++ promptTail)].
Proof.
  run. fold (summaryPromptOf text).
  destruct (fetch rt _ _) as [|r]; [reflexivity|].
  destruct (Response.ok r); [|reflexivity]. cbn [negb].
  destruct (Response.json r) as [data|]; [|reflexivity].
  pose proof (generatedTextOf_trace data) as Htr.
  destruct (generatedTextOf data) as [tr [g|e]]; simpl in Htr; subst tr;
    [|reflexivity].
  destruct g; try reflexivity.
  cbv zeta.
  match goal with |- context [if ?b then _ else _] => destruct b end; reflexivity.
Qed.

(** X26: what the retry generator can return: one of its two sentinels, or
    the trimmed [SUMMARY:] section of the upstream reply, which is then at
    least 20 code units long. *)
Theorem generateSummaryRetry_results (rt : Runtime) (text : jsstring) :
  exists s,
    snd (generateSummaryRetry rt text) = Returned s
    /\ (s = js "AI summary generation failed after retry"
        \/ s = js "AI summary generation failed after retry - please regenerate manually."
        \/ (20 <= jsLength s
            /\ exists g group1,
                 extractedText (fetch rt (endpoint rt) (summaryPromptOf text))
                 = Some (JString g)
                 /\ matchSummary g = Some group1
                 /\ s = trim group1)).
Proof.
  destruct (extractedText (fetch rt (endpoint rt) (summaryPromptOf text)))
    as [[| | |g| |]|] eqn:Hx.
  4:{ rewrite (generateSummaryRetry_parsed rt text g Hx). cbv zeta.
      destruct (matchSummary g) as [group1|] eqn:Hm.
      - destruct (isEmpty (trim group1) || (jsLength (trim group1) <? 20)) eqn:Hc.
        + eexists. split; [reflexivity|]. tauto.
        + eexists. split; [reflexivity|]. right; right.
          apply orb_false_iff in Hc as [_ Hlen]. apply N.ltb_ge in Hlen.
          split; [exact Hlen|]. now exists g, group1.
      - eexists. split; [reflexivity|]. now left. }
  all: run; unfold extractedText in Hx;
    destruct (fetch rt _ _) as [|r]; [eexists; split; [reflexivity | now left]|];
    destruct (Response.ok r); cbn [negb];
      [|eexists; split; [reflexivity | now left]];
    destruct (Response.json r) as [data|];
      [|eexists; split; [reflexivity | now left]];
    destruct (generatedTextOf data) as [tr [g'|e]];
      [|eexists; split; [reflexivity | now left]];
    try discriminate; injection Hx as ->;
    eexists; (split; [reflexivity | now left]).
Qed.

(** The reply behind a normal return of [generateSummary]. *)
Lemma generateSummary_returned_reply
    (rt : Runtime) (text : jsstring) (tr : list Event) (summary : jsstring) :
  generateSummary rt text = (tr, Returned summary) ->
  isBlank text = false
  /\ exists g,
       extractedText (fetch rt (endpoint rt) (summaryPromptOf (truncatedTextOf text)))
       = Some (JString g)
       /\ g <> [].
Proof.
  destruct (isBlank text) eqn:Hb.
  { rewrite generateSummary_blank by exact Hb. discriminate. }
  intros H. split; [reflexivity|]. revert H. run. rewrite Hb.
  unfold extractedText.
  destruct (fetch rt _ _) as [|r]; [discriminate|].
  destruct (Response.ok r); [|discriminate]. cbn [negb].
  destruct (Response.json r) as [data|]; [|discriminate].
  destruct (generatedTextOf data) as [tr0 [g|e]]; [|discriminate].
  destruct (truthy g) eqn:Htruthy; [|discriminate]. cbn [negb].
  destruct g as [| | |s| |]; try discriminate.
  intros _. exists s. split; [reflexivity|].
  intros ->. discriminate.
Qed.

(** X27: the two generators agree where both apply.  Let [generateSummary]
    return a summary for a transcript of at most 32000 code units, and let
    the retry run later with the same API key and get, for the same
    request, the response the first call got.  Then [generateSummaryRetry]
    sends the same request and returns the same summary, except when the
    reply had no section at all: then the first returned its initial value
    [AI-generated summary not available] and the retry returns its
    sentinel. *)
Theorem generateSummaryRetry_agrees
    (rt later : Runtime) (text : jsstring) (tr : list Event) (summary : jsstring) :
  generateSummary rt text = (tr, Returned summary) ->
  jsLength text <= 32000 ->
  GEMINI_API_KEY later = GEMINI_API_KEY rt ->
  fetch later (endpoint later) (promptHead ++ text ++ promptTail)
  = fetch rt (endpoint rt) (promptHead ++ text ++ promptTail) ->
  fst (generateSummaryRetry later text) = tr
  /\ (snd (generateSummaryRetry later text) = Returned summary
      \/ (summary = js "AI-generated summary not available"
          /\ snd (generateSummaryRetry later text)
             = Returned (js "AI summary generation failed after retry"))).
Proof.
  intros Hgen Hlen Hkey Hsame.
  fold (summaryPromptOf text) in Hsame.
  assert (Hurl : endpoint later = endpoint rt) by (unfold endpoint; now rewrite Hkey).
  assert (Htrunc : truncatedTextOf text = text).
  { unfold truncatedTextOf, maxTranscriptLength.
    apply N.ltb_ge in Hlen. now rewrite Hlen. }
  destruct (generateSummary_returned_reply rt text tr summary Hgen)
    as (Hb & g & Hx & Hg).
  pose proof (generateSummary_trace rt text Hb) as Htr.
  pose proof (generateSummary_parsed rt text g Hb Hx Hg) as Hp.
  rewrite Hgen in Htr, Hp. cbn [fst snd] in Htr, Hp. cbv zeta in Hp.
  rewrite Htrunc in Htr, Hx. rewrite <- Hsame in Hx.
  split.
  - rewrite Htr, <- Hurl. run. fold (summaryPromptOf text).
    apply extractedText_inv in Hx as (r & data & Hf & Hok & Hjson & Hgt).
    rewrite Hf, Hok, Hjson, Hgt. cbn [negb]. cbv zeta.
    match goal with |- context [if ?b then _ else _] => destruct b end; reflexivity.
  - rewrite (generateSummaryRetry_parsed later text g Hx). cbv zeta.
    destruct (matchSummary g) as [group1|].
    + left.
      destruct (isEmpty (trim group1) || (jsLength (trim group1) <? 20));
        [discriminate|].
      now injection Hp as <-.
    + right. split.
      * change (isEmpty (js "AI-generated summary not available")
                || (jsLength (js "AI-generated summary not available") <? 20))
          with false in Hp.
        now injection Hp as <-.
      * reflexivity.
Qed.

(** The same endpoint asked twice, and an endpoint that has changed its
    mind by the time of the retry: only the first is covered. *)
Lemma generateSummaryRetry_agrees_witness :
  let rt := Mock.answering Mock.testReply in
  (fst (generateSummaryRetry rt (js "hello"))
   = [Fetch (endpoint rt) (summaryPromptOf (js "hello"))]
   /\ (snd (generateSummaryRetry rt (js "hello")) = Returned Mock.testSummary
       \/ (Mock.testSummary = js "AI-generated summary not available"
           /\ snd (generateSummaryRetry rt (js "hello"))
              = Returned (js "AI summary generation failed after retry"))))
  /\ snd (generateSummaryRetry (Mock.failing 429 (js "quota")) (js "hello"))
     = Returned (js "AI summary generation failed after retry").
Proof.
  cbv zeta. split; [|reflexivity].
  apply (generateSummaryRetry_agrees (Mock.answering Mock.testReply)
           (Mock.answering Mock.testReply) (js "hello")).
  - reflexivity.
  - vm_compute. discriminate.
  - reflexivity.
  - reflexivity.
Defined.

(** ** The reply's shape *)

(** X28: the text is read from [candidates[0].content.parts[0].text] and
    from nowhere else: from a reply of that shape the route extracts the
    text of the first part of the first candidate (the empty string
    included), whatever further parts and candidates follow; a body that is
    the JSON [null] makes the first property access throw. *)
Theorem generatedTextOf_first_part
    (text : jsstring) (moreParts moreCandidates : list Json) :
  generatedTextOf
    (JObject
       [(js "candidates",
         JArray
           (JObject
              [(js "content",
                JObject
                  [(js "parts",
                    JArray (JObject [(js "text", JString text)] :: moreParts))])]
            :: moreCandidates))])
  = ([], Returned (JString text))
  /\ generatedTextOf JNull = ([], Thrown TypeError).
Proof.
  split; [|reflexivity].
  destruct text; reflexivity.
Qed.

(** ** The landing page *)

Lemma Home_run_keeps_closed (st : Home.State) (actions : list Home.Action) :
  Home.showSupportedFormats st = false ->
  Home.showSupportedFormats (Home.run st actions) = false.
Proof.
  revert st; induction actions as [|a actions IH]; intros st H; [exact H|].
  unfold Home.run in *. cbn [fold_left]. apply IH.
  destruct a; [exact H | reflexivity].
Qed.

(** X29: the page has no way to open the supported-formats modal: after any
    sequence of clicks on questions and of closings, [showSupportedFormats]
    is still [false]. *)
Theorem Home_modal_never_opens (actions : list Home.Action) :
  Home.showSupportedFormats (Home.run Home.initial actions) = false.
Proof.
  now apply Home_run_keeps_closed.
Qed.

(** X30: the FAQ is an accordion: a click on a question shows its answer
    and no other, and a click on the question that is open shows none. *)
Theorem Home_faq_accordion (st : Home.State) (index : nat) :
  (index < length Home.faqs)%nat ->
  Home.shownAnswers (Home.step st (Home.ClickFaq index))
  = if Home.isOpen st index then [] else [snd (nth index Home.faqs ([], []))].
Proof.
  intros Hlt. unfold Home.step.
  destruct (Home.isOpen st index); [reflexivity|].
  do 6 (destruct index as [|index]; [reflexivity|]).
  simpl in Hlt. lia.
Qed.

Lemma Home_faq_accordion_witness :
  Home.shownAnswers
    (Home.run Home.initial [Home.ClickFaq 1; Home.ClickFaq 4])
  = [js "You can upload files up to 500MB or 4 hours of audio/video content."].
Proof.
  exact (Home_faq_accordion (Home.run Home.initial [Home.ClickFaq 1]) 4
           ltac:(vm_compute; lia)).
Defined.
